(** * go-sandbox: the database access example (app/databaseAccess)

    A shallow embedding of [databaseAccess.go] and of the point lookup of the
    earlier single-function version of the same program, together with a
    reference model of what the program talks to: the file system, the
    [database/sql] handles and the two engines behind them.

    Conventions.
    - A Go [string] is a [string] (a sequence of bytes), a Go [int] is a [Z]
      (64-bit platform: [strconv.Atoi] clamps at the bounds of [int64]).
    - A Go function returning [(T, error)] returns either a sum [error + T]
      (when the Go code returns [nil] next to the error) or a pair
      [T * option error] (when both components carry data).
    - Effects are threaded through a state monad over [World]; a computation
      ends with a value, with [os.Exit] or with a runtime panic. *)

From Stdlib Require Import ZArith List String Ascii Bool Lia Permutation.
From Stdlib Require Import DecimalString.
Import ListNotations.

Local Open Scope Z_scope.
Local Open Scope list_scope.
Local Open Scope string_scope.

(* ================================================================== *)
(** ** Errors, panics and results *)

(** Error values.  [ErrNew] and [ErrWrap] are the values built by
    [github.com/pkg/errors]; the others come from [database/sql], from a
    driver or from the operating system. *)
Inductive error : Type :=
| ErrNoRows                                (* sql.ErrNoRows *)
| ErrDriver (msg : string)                 (* driver or OS failure *)
| ErrScan (msg : string)                   (* rows.Scan conversion failure *)
| ErrNew (msg : string)                    (* errors.New(msg) *)
| ErrWrap (cause : error) (msg : string).  (* errors.Wrap(cause, msg) *)

(** Outcome of [strconv.Atoi] when it fails. *)
Inductive NumErr : Type := ErrSyntax | ErrRange.

Inductive RuntimePanic : Type :=
| IndexOutOfRange (index len : nat).       (* index out of range [index] with length len *)

Inductive Result (A : Type) : Type :=
| Val (a : A)
| Exit (code : Z)                          (* os.Exit(code): deferred calls do not run *)
| Panic (p : RuntimePanic).

Arguments Val {A} a.
Arguments Exit {A} code.
Arguments Panic {A} p.

Definition rbind {A B} (r : Result A) (k : A -> Result B) : Result B :=
  match r with
  | Val a => k a
  | Exit c => Exit c
  | Panic p => Panic p
  end.

(** [xs[i]] on a slice. *)
Definition index {A} (xs : list A) (i : nat) : Result A :=
  match nth_error xs i with
  | Some x => Val x
  | None => Panic (IndexOutOfRange i (List.length xs))
  end.

(* ================================================================== *)
(** ** The outside world *)

(** A row of a two-column table: [(id, name)] in [foo],
    [(srid, proj4text)] in [spatial_ref_sys]. *)
Definition Row : Type := (Z * string)%type.

(** A database: the one table the program creates, and the table of
    spatial reference systems a PostGIS installation provides. *)
Record Store : Type := mkStore {
  foo : option (list Row);
  spatial_ref_sys : option (list Row)
}.

Definition emptyStore : Store := mkStore None None.

Definition set_foo (t : option (list Row)) (st : Store) : Store :=
  mkStore t (spatial_ref_sys st).

Inductive File : Type :=
| TextFile (content : string)
| DbFile (store : Store).          (* a file written by SQLite *)

(** The SQL texts that occur in the program. *)
Inductive Sql : Type :=
| CreateTableFoo          (* create table foo (id integer not null primary key, name text); *)
| DropTableIfExistsFoo    (* drop table IF EXISTS foo *)
| DeleteFromFoo           (* delete from foo; *)
| InsertIntoFooValues (rows : list Row)
                          (* insert into foo(id, name) values(1, 'foo'), (2, 'bar'), (3, 'baz'); *)
| InsertIntoFooParams     (* insert into foo(id, name) values ($1,$2); *)
| SelectFoo               (* select id, name from foo; *)
| SelectNameWhereId       (* select name from foo where id = ? *)
| SelectSpatialRefSys.    (* SELECT srid, proj4text FROM spatial_ref_sys; *)

Inductive Driver : Type := sqlite3 | postgres.

(** [*sql.DB]: the driver and the data source name given to [sql.Open]. *)
Record DB : Type := mkDB { driver : Driver; dataSourceName : string }.

(** [*sql.Tx] *)
Record Tx : Type := mkTx { tx_db : DB }.

(** [*sql.Stmt] *)
Record Stmt : Type := mkStmt { stmt_db : DB; stmt_sql : Sql }.

(** [*sql.Rows]: what the calls of [Scan] will deliver, one entry per
    successful [Next], and what [Err] reports once [Next] has returned
    false. *)
Record Rows : Type := mkRows {
  scans : list (error + Row);
  rowsErr : option error
}.

(** Calls that leave the program, in the order they are made. *)
Inductive Call : Type :=
| OsRemove (path : string)
| OsOpen (path : string)
| FileClose
| SqlOpen (driverName dsn : string)
| DbExec (db : DB) (q : Sql)
| DbBegin (db : DB)
| TxPrepare (q : Sql)
| StmtExec (id : Z) (name : string)
| StmtClose
| TxCommit
| TxRollback
| DbQuery (db : DB) (q : Sql)
| DbPrepare (db : DB) (q : Sql)
| StmtQueryRow (key : string)
| RowsClose
| DbClose (db : DB).

Inductive Output : Type :=
| Stdout (line : string)
| Stderr (line : string)           (* a line of the logger, without its time stamp *)
| StackFrames.                     (* the frames of a stack trace, one line each *)

(** The state the program runs in.
    - [fs]: the files; - [pg]: the database of the PostgreSQL server,
      [None] when no server can be reached;
    - [tx]: the rows inserted by the transaction in progress, if any, which
      are not part of the table before the commit;
    - [faults]: failures of the database layer that do not come from the
      statements themselves (lost connections and the like): each call into
      [database/sql] takes the next entry, and fails with that message when
      it is [Some]; an exhausted list injects nothing;
    - [output], [calls]: what has been printed and called so far. *)
Record World : Type := mkWorld {
  fs : list (string * File);
  pg : option Store;
  tx : option (list Row);
  faults : list (option string);
  output : list Output;
  calls : list Call
}.

Definition set_fs (v : list (string * File)) (w : World) : World :=
  mkWorld v (pg w) (tx w) (faults w) (output w) (calls w).
Definition set_pg (v : option Store) (w : World) : World :=
  mkWorld (fs w) v (tx w) (faults w) (output w) (calls w).
Definition set_tx (v : option (list Row)) (w : World) : World :=
  mkWorld (fs w) (pg w) v (faults w) (output w) (calls w).
Definition set_faults (v : list (option string)) (w : World) : World :=
  mkWorld (fs w) (pg w) (tx w) v (output w) (calls w).
Definition set_output (v : list Output) (w : World) : World :=
  mkWorld (fs w) (pg w) (tx w) (faults w) v (calls w).
Definition set_calls (v : list Call) (w : World) : World :=
  mkWorld (fs w) (pg w) (tx w) (faults w) (output w) v.

(** *** The monad of the program *)

Definition M (A : Type) : Type := World -> Result A * World.

Definition ret {A} (a : A) : M A := fun w => (Val a, w).

Definition bind {A B} (m : M A) (k : A -> M B) : M B :=
  fun w =>
    match m w with
    | (Val a, w') => k a w'
    | (Exit c, w') => (Exit c, w')
    | (Panic p, w') => (Panic p, w')
    end.

Notation "x <- c1 ;; c2" := (bind c1 (fun x => c2))
  (at level 61, c1 at next level, right associativity).
Notation "c1 ;; c2" := (bind c1 (fun _ => c2))
  (at level 61, right associativity).

Definition liftR {A} (r : Result A) : M A := fun w => (r, w).

(** [defer deferred; body]: the deferred call runs when the body returns or
    panics, not when it leaves the process through [os.Exit]. *)
Definition defer {A} (deferred : M unit) (body : M A) : M A :=
  fun w =>
    match body w with
    | (Exit c, w') => (Exit c, w')
    | (r, w') => (r, snd (deferred w'))
    end.

Definition emit (o : Output) : M unit :=
  fun w => (Val tt, set_output (output w ++ [o])%list w).

Definition called (c : Call) : M unit :=
  fun w => (Val tt, set_calls (calls w ++ [c])%list w).

(** The next entry of [faults]. *)
Definition nextFault : M (option error) :=
  fun w =>
    match faults w with
    | [] => (Val None, w)
    | f :: rest => (Val (option_map ErrDriver f), set_faults rest w)
    end.

(** *** Files *)

Fixpoint lookupFile (path : string) (files : list (string * File)) : option File :=
  match files with
  | [] => None
  | (p, f) :: rest => if String.eqb p path then Some f else lookupFile path rest
  end.

Fixpoint removeFile (path : string) (files : list (string * File))
  : list (string * File) :=
  match files with
  | [] => []
  | (p, f) :: rest =>
      if String.eqb p path then removeFile path rest
      else (p, f) :: removeFile path rest
  end.

Definition writeFile (path : string) (f : File) (files : list (string * File))
  : list (string * File) :=
  (path, f) :: removeFile path files.

(** *** The engines *)

(** The database a handle gives access to.  SQLite creates the file when it
    first writes to it, and reads a missing or empty file as an empty
    database. *)
Definition load (db : DB) (w : World) : error + Store :=
  match driver db with
  | sqlite3 =>
      match lookupFile (dataSourceName db) (fs w) with
      | None => inr emptyStore
      | Some (DbFile st) => inr st
      | Some (TextFile EmptyString) => inr emptyStore
      | Some (TextFile _) => inl (ErrDriver "file is not a database")
      end
  | postgres =>
      match pg w with
      | Some st => inr st
      | None => inl (ErrDriver "connection refused")
      end
  end.

Definition save (db : DB) (st : Store) (w : World) : World :=
  match driver db with
  | sqlite3 => set_fs (writeFile (dataSourceName db) (DbFile st) (fs w)) w
  | postgres => set_pg (Some st) w
  end.

Definition hasId (i : Z) (t : list Row) : bool := existsb (fun r => Z.eqb (fst r) i) t.

(** Rows added to a table one by one; [None] when a key is already there. *)
Fixpoint insertRows (rows t : list Row) : option (list Row) :=
  match rows with
  | [] => Some t
  | r :: rest => if hasId (fst r) t then None else insertRows rest (t ++ [r])%list
  end.

(** The error of an engine for a table that does not exist (the wording is
    SQLite's; PostgreSQL words it differently). *)
Definition noSuchTable (name : string) : error :=
  ErrDriver ("no such table: " ++ name).

Definition uniqueViolation : error := ErrDriver "UNIQUE constraint failed: foo.id".

(** A statement run for its effect.  The statements the program never runs
    this way are rejected. *)
Definition execSql (q : Sql) (st : Store) : error + Store :=
  match q with
  | CreateTableFoo =>
      match foo st with
      | Some _ => inl (ErrDriver "table foo already exists")
      | None => inr (set_foo (Some []) st)
      end
  | DropTableIfExistsFoo => inr (set_foo None st)
  | DeleteFromFoo =>
      match foo st with
      | Some _ => inr (set_foo (Some []) st)
      | None => inl (noSuchTable "foo")
      end
  | InsertIntoFooValues rows =>
      match foo st with
      | Some t =>
          match insertRows rows t with
          | Some t' => inr (set_foo (Some t') st)
          | None => inl uniqueViolation
          end
      | None => inl (noSuchTable "foo")
      end
  | _ => inl (ErrDriver "statement not executable")
  end.

(** A statement run for its rows. *)
Definition querySql (q : Sql) (st : Store) : error + list Row :=
  match q with
  | SelectFoo =>
      match foo st with
      | Some t => inr t
      | None => inl (noSuchTable "foo")
      end
  | SelectSpatialRefSys =>
      match spatial_ref_sys st with
      | Some t => inr t
      | None => inl (noSuchTable "spatial_ref_sys")
      end
  | _ => inl (ErrDriver "statement returns no rows")
  end.

(** The cursor over [rows]: one entry of the fault list per row decides
    whether its [Scan] fails, one more whether the iteration ends in an
    error. *)
Fixpoint scanResults (rows : list Row) (fl : list (option string))
  : list (error + Row) * list (option string) :=
  match rows with
  | [] => ([], fl)
  | r :: rest =>
      let f := hd None fl in
      let (more, fl') := scanResults rest (tl fl) in
      (match f with Some m => inl (ErrScan m) | None => inr r end :: more, fl')
  end.

Definition openCursor (rows : list Row) (fl : list (option string))
  : Rows * list (option string) :=
  let (sc, fl') := scanResults rows fl in
  (mkRows sc (option_map ErrDriver (hd None fl')), tl fl').

(* ================================================================== *)
(** ** The parts of the Go standard library the program uses *)

Module errors.

Definition New (msg : string) : error := ErrNew msg.

Definition Wrap (err : error) (msg : string) : error := ErrWrap err msg.

(** [err.Error()] *)
Fixpoint Error (e : error) : string :=
  match e with
  | ErrNoRows => "sql: no rows in result set"
  | ErrDriver m => m
  | ErrScan m => m
  | ErrNew m => m
  | ErrWrap c m => m ++ ": " ++ Error c
  end.

(** Whether the value implements [stackTracer]: those of pkg/errors do. *)
Definition hasStackTrace (e : error) : bool :=
  match e with
  | ErrNew _ | ErrWrap _ _ => true
  | _ => false
  end.

End errors.

Module strings.

(** [strings.Split(s, sep)] for a one-byte separator: the pieces between
    the occurrences of [sep]; always at least one piece. *)
Fixpoint Split (s : string) (sep : ascii) : list string :=
  match s with
  | EmptyString => [EmptyString]
  | String c rest =>
      if Ascii.eqb c sep then EmptyString :: Split rest sep
      else match Split rest sep with
           | [] => [String c EmptyString]
           | piece :: pieces => String c piece :: pieces
           end
  end.

(** [strings.Contains(s, string(c))] *)
Fixpoint Contains (s : string) (c : ascii) : bool :=
  match s with
  | EmptyString => false
  | String a rest => Ascii.eqb a c || Contains rest c
  end.

End strings.

Module strconv.

Definition isDigit (c : ascii) : bool :=
  (48 <=? nat_of_ascii c)%nat && (nat_of_ascii c <=? 57)%nat.

Definition digitVal (c : ascii) : Z := Z.of_nat (nat_of_ascii c) - 48.

Definition maxUint64 : Z := 2 ^ 64 - 1.

(** [ParseUint(s, 10, 64)] on a non-empty [s], left to right. *)
Fixpoint parseUint (s : string) (n : Z) : Z * option NumErr :=
  match s with
  | EmptyString => (n, None)
  | String c rest =>
      if isDigit c then
        let n1 := n * 10 + digitVal c in
        if (n1 >? maxUint64)%Z then (maxUint64, Some ErrRange)
        else parseUint rest n1
      else (0, Some ErrSyntax)
  end.

(** [strconv.Atoi(s)] with a 64-bit [int]: an optional sign, then decimal
    digits only; out of range values are clamped and reported. *)
Definition Atoi (s : string) : Z * option NumErr :=
  match s with
  | EmptyString => (0, Some ErrSyntax)
  | String c rest =>
      let neg := Ascii.eqb c "-" in
      let body := if neg || Ascii.eqb c "+" then rest else s in
      match body with
      | EmptyString => (0, Some ErrSyntax)
      | _ =>
          match parseUint body 0 with
          | (_, Some ErrSyntax) => (0, Some ErrSyntax)
          | (un, _) =>
              if negb neg && (un >=? 2 ^ 63)%Z then (2 ^ 63 - 1, Some ErrRange)
              else if neg && (un >? 2 ^ 63)%Z then (- 2 ^ 63, Some ErrRange)
              else (if neg then - un else un, None)
          end
      end
  end.

(** [strconv.Itoa(n)] *)
Definition Itoa (n : Z) : string := NilZero.string_of_int (Z.to_int n).

End strconv.

Module fmt.

Fixpoint zeros (n : nat) : string :=
  match n with
  | O => EmptyString
  | S n' => String "0" (zeros n')
  end.

Definition padZero (width : nat) (digits : string) : string :=
  zeros (width - String.length digits) ++ digits.

(** The verb [%03d]. *)
Definition verb_03d (n : Z) : string :=
  if (n <? 0)%Z then "-" ++ padZero 2 (strconv.Itoa (- n))
  else padZero 3 (strconv.Itoa n).

(** [fmt.Sprintf("nom%03d", i)] *)
Definition Sprintf_nom03d (i : Z) : string := "nom" ++ verb_03d i.

(** [fmt.Sprintf("%03d", i, name)]: the format consumes [i] only, and
    Sprintf reports the operand left over after the formatted text. *)
Definition Sprintf_03d_extra (i : Z) (name : string) : string :=
  verb_03d i ++ "%!(EXTRA string=" ++ name ++ ")".

(** What [fmt.Println(id, name)] writes, without the final newline. *)
Definition Sprintln2 (id : Z) (name : string) : string :=
  strconv.Itoa id ++ " " ++ name.

(** What [fmt.Println("Test: ", srid, proj4text)] writes. *)
Definition Sprintln_Test (srid : Z) (proj4text : string) : string :=
  "Test: " ++ " " ++ strconv.Itoa srid ++ " " ++ proj4text.

(** [fmt.Println] and [fmt.Printf] of one full line of text. *)
Definition Println (line : string) : M unit := emit (Stdout line).

End fmt.

Module bufio.

Definition LF : ascii := "010"%char.
Definition CR : ascii := "013"%char.

Fixpoint splitLines (data : string) : list string :=
  match data with
  | EmptyString => []
  | String c rest =>
      if Ascii.eqb c LF then EmptyString :: splitLines rest
      else match splitLines rest with
           | [] => [String c EmptyString]
           | line :: lines => String c line :: lines
           end
  end.

Fixpoint dropCR (line : string) : string :=
  match line with
  | EmptyString => EmptyString
  | String c EmptyString => if Ascii.eqb c CR then EmptyString else line
  | String c rest => String c (dropCR rest)
  end.

(** The tokens a [bufio.Scanner] with the default split function
    ([ScanLines]) delivers for [data]: the lines without their end-of-line
    marker, a last line that has no newline included when it is not empty.
    Lines are taken to fit the scanner's buffer (64 KiB). *)
Definition ScanLines (data : string) : list string :=
  map dropCR (splitLines data).

End bufio.

Module log.

(** [log.Printf] of a full line. *)
Definition Printf (line : string) : M unit := emit (Stderr line).

(** [log.Fatal(err)]: prints, then [os.Exit(1)]. *)
Definition Fatal {A} (err : error) : M A :=
  emit (Stderr (errors.Error err)) ;; (fun w => (Exit 1, w)).

End log.

Module os.

(** [os.Remove(path)] *)
Definition Remove (path : string) : M (option error) :=
  called (OsRemove path) ;;
  fun w =>
    match lookupFile path (fs w) with
    | Some _ => (Val None, set_fs (removeFile path (fs w)) w)
    | None =>
        (Val (Some (ErrDriver ("remove " ++ path ++ ": no such file or directory"))), w)
    end.

(** [os.Open(path)], the handle standing for the bytes it will deliver.
    Database files are not read as text here. *)
Definition Open (path : string) : M (error + string) :=
  called (OsOpen path) ;;
  fun w =>
    match lookupFile path (fs w) with
    | Some (TextFile content) => (Val (inr content), w)
    | Some (DbFile _) =>
        (Val (inl (ErrDriver ("open " ++ path ++ ": not a text file"))), w)
    | None =>
        (Val (inl (ErrDriver ("open " ++ path ++ ": no such file or directory"))), w)
    end.

(** [f.Close()] *)
Definition Close : M unit := called FileClose.

End os.

Module sql.

Definition ErrTxDone : error :=
  ErrDriver "sql: transaction has already been committed or rolled back".

(** A call into the database layer: it is recorded, and fails at once when
    the world injects a failure. *)
Definition attempt {A} (c : Call) (body : M (error + A)) : M (error + A) :=
  called c ;;
  f <- nextFault ;;
  match f with
  | Some e => ret (inl e)
  | None => body
  end.

(** [sql.Open(driverName, dsn)]: finds the registered driver; the database
    itself is reached by the first statement only. *)
Definition Open (driverName dsn : string) : M (error + DB) :=
  attempt (SqlOpen driverName dsn)
    (if String.eqb driverName "sqlite3" then ret (inr (mkDB sqlite3 dsn))
     else if String.eqb driverName "postgres" then ret (inr (mkDB postgres dsn))
     else ret (inl (ErrDriver ("sql: unknown driver " ++ driverName)))).

(** [db.Exec(q)] *)
Definition DB_Exec (db : DB) (q : Sql) : M (error + unit) :=
  attempt (DbExec db q) (fun w =>
    match load db w with
    | inl e => (Val (inl e), w)
    | inr st =>
        match execSql q st with
        | inl e => (Val (inl e), w)
        | inr st' => (Val (inr tt), save db st' w)
        end
    end).

(** [db.Begin()]: one transaction at a time. *)
Definition DB_Begin (db : DB) : M (error + Tx) :=
  attempt (DbBegin db) (fun w =>
    match load db w with
    | inl e => (Val (inl e), w)
    | inr _ =>
        match tx w with
        | Some _ => (Val (inl (ErrDriver "database is locked")), w)
        | None => (Val (inr (mkTx db)), set_tx (Some []) w)
        end
    end).

(** [tx.Prepare(q)]: the statement is compiled against the schema. *)
Definition Tx_Prepare (t : Tx) (q : Sql) : M (error + Stmt) :=
  attempt (TxPrepare q) (fun w =>
    match tx w with
    | None => (Val (inl ErrTxDone), w)
    | Some _ =>
        match load (tx_db t) w with
        | inl e => (Val (inl e), w)
        | inr st =>
            match q, foo st with
            | InsertIntoFooParams, Some _ => (Val (inr (mkStmt (tx_db t) q)), w)
            | InsertIntoFooParams, None => (Val (inl (noSuchTable "foo")), w)
            | _, _ => (Val (inl (ErrDriver "statement not prepared")), w)
            end
        end
    end).

(** [stmt.Exec(id, name)] on the insert prepared in a transaction: the row
    joins the rows of the transaction unless its key is taken. *)
Definition Stmt_Exec (s : Stmt) (id : Z) (name : string) : M (error + unit) :=
  attempt (StmtExec id name) (fun w =>
    match tx w with
    | None => (Val (inl ErrTxDone), w)
    | Some pending =>
        match load (stmt_db s) w with
        | inl e => (Val (inl e), w)
        | inr st =>
            match stmt_sql s, foo st with
            | InsertIntoFooParams, Some t =>
                if hasId id (t ++ pending)%list then (Val (inl uniqueViolation), w)
                else (Val (inr tt), set_tx (Some (pending ++ [(id, name)])%list) w)
            | InsertIntoFooParams, None => (Val (inl (noSuchTable "foo")), w)
            | _, _ => (Val (inl (ErrDriver "statement not prepared")), w)
            end
        end
    end).

(** [stmt.Close()] *)
Definition Stmt_Close (s : Stmt) : M unit := called StmtClose.

(** [tx.Commit()]: the rows of the transaction join the table; the
    transaction is over afterwards, committed or not. *)
Definition Tx_Commit (t : Tx) : M (option error) :=
  called TxCommit ;;
  f <- nextFault ;;
  fun w =>
    match tx w with
    | None => (Val (Some ErrTxDone), w)
    | Some pending =>
        let w0 := set_tx None w in
        match f with
        | Some e => (Val (Some e), w0)
        | None =>
            match load (tx_db t) w with
            | inl e => (Val (Some e), w0)
            | inr st =>
                match foo st with
                | None => (Val (Some (noSuchTable "foo")), w0)
                | Some t0 =>
                    (Val None,
                     save (tx_db t) (set_foo (Some (t0 ++ pending)%list) st) w0)
                end
            end
        end
    end.

(** [tx.Rollback()]: the rows of the transaction are dropped. *)
Definition Tx_Rollback (t : Tx) : M (option error) :=
  called TxRollback ;;
  fun w =>
    match tx w with
    | None => (Val (Some ErrTxDone), w)
    | Some _ => (Val None, set_tx None w)
    end.

(** [db.Query(q)] *)
Definition DB_Query (db : DB) (q : Sql) : M (error + Rows) :=
  attempt (DbQuery db q) (fun w =>
    match load db w with
    | inl e => (Val (inl e), w)
    | inr st =>
        match querySql q st with
        | inl e => (Val (inl e), w)
        | inr rows =>
            let (cursor, fl) := openCursor rows (faults w) in
            (Val (inr cursor), set_faults fl w)
        end
    end).

(** [rows.Close()] *)
Definition Rows_Close (r : Rows) : M unit := called RowsClose.

(** [db.Prepare(q)] outside a transaction. *)
Definition DB_Prepare (db : DB) (q : Sql) : M (error + Stmt) :=
  attempt (DbPrepare db q) (fun w =>
    match load db w with
    | inl e => (Val (inl e), w)
    | inr st =>
        match q, foo st with
        | SelectNameWhereId, Some _ => (Val (inr (mkStmt db q)), w)
        | SelectNameWhereId, None => (Val (inl (noSuchTable "foo")), w)
        | _, _ => (Val (inl (ErrDriver "statement not prepared")), w)
        end
    end).

(** [stmt.QueryRow(key).Scan(&name)] on the prepared point lookup: the name
    of the first row whose id equals the key (a text key is compared as
    the integer it spells), [sql.ErrNoRows] when there is none. *)
Definition Stmt_QueryRow_Scan (s : Stmt) (key : string) : M (error + string) :=
  attempt (StmtQueryRow key) (fun w =>
    match load (stmt_db s) w with
    | inl e => (Val (inl e), w)
    | inr st =>
        match stmt_sql s, foo st with
        | SelectNameWhereId, Some t =>
            match strconv.Atoi key with
            | (n, None) =>
                match filter (fun r => Z.eqb (fst r) n) t with
                | r :: _ => (Val (inr (snd r)), w)
                | [] => (Val (inl ErrNoRows), w)
                end
            | _ => (Val (inl ErrNoRows), w)
            end
        | SelectNameWhereId, None => (Val (inl (noSuchTable "foo")), w)
        | _, _ => (Val (inl (ErrDriver "statement not prepared")), w)
        end
    end).

(** [db.Close()] *)
Definition DB_Close (db : DB) : M unit := called (DbClose db).

End sql.

(* ================================================================== *)
(** ** Connection parameters and the configuration file *)

Record PostgresDb : Type := mkPostgresDb {
  host : string;
  port : Z;
  dbname : string;
  user : string;
  password : string;
  sslmode : string
}.

(** [PostgresDb{}] *)
Definition zeroPostgresDb : PostgresDb := mkPostgresDb "" 0 "" "" "" "".

Definition set_host (v : string) (p : PostgresDb) : PostgresDb :=
  mkPostgresDb v (port p) (dbname p) (user p) (password p) (sslmode p).
Definition set_port (v : Z) (p : PostgresDb) : PostgresDb :=
  mkPostgresDb (host p) v (dbname p) (user p) (password p) (sslmode p).
Definition set_dbname (v : string) (p : PostgresDb) : PostgresDb :=
  mkPostgresDb (host p) (port p) v (user p) (password p) (sslmode p).
Definition set_user (v : string) (p : PostgresDb) : PostgresDb :=
  mkPostgresDb (host p) (port p) (dbname p) v (password p) (sslmode p).
Definition set_password (v : string) (p : PostgresDb) : PostgresDb :=
  mkPostgresDb (host p) (port p) (dbname p) (user p) v (sslmode p).
Definition set_sslmode (v : string) (p : PostgresDb) : PostgresDb :=
  mkPostgresDb (host p) (port p) (dbname p) (user p) (password p) v.

(** [PostgresDb.buildConnectionString]:
    [fmt.Sprintf("user=%s password=%s dbname=%s host=%s port=%d sslmode=%s", ...)] *)
Definition buildConnectionString (p : PostgresDb) : string :=
  "user=" ++ user p ++ " password=" ++ password p ++ " dbname=" ++ dbname p
  ++ " host=" ++ host p ++ " port=" ++ strconv.Itoa (port p)
  ++ " sslmode=" ++ sslmode p.

(** The message of the error [loadPgParams] builds for a bad port. *)
Definition portErrorMsg (value : string) : string :=
  "The port you have set '" ++ value
  ++ "' for the database is not an integer. Please fix the configuration.".

(** The [switch key] of [loadPgParams]: the updated parameters and, for a
    port that [strconv.Atoi] rejects, the error the function returns at once
    ([out.port] has been assigned Atoi's result by then). *)
Definition assignKey (key value : string) (out : PostgresDb)
  : PostgresDb * option error :=
  if String.eqb key "user" then (set_user value out, None)
  else if String.eqb key "password" then (set_password value out, None)
  else if String.eqb key "dbname" then (set_dbname value out, None)
  else if String.eqb key "host" then (set_host value out, None)
  else if String.eqb key "port" then
    match strconv.Atoi value with
    | (n, Some _) => (set_port n out, Some (errors.New (portErrorMsg value)))
    | (n, None) => (set_port n out, None)
    end
  else if String.eqb key "sslmode" then (set_sslmode value out, None)
  else (out, None).

(** One turn of the [for s.Scan()] loop of [loadPgParams]. *)
Definition scanStep (line : string) (out : PostgresDb)
  : Result (PostgresDb * option error) :=
  let elements := strings.Split line "=" in
  rbind (index elements 0) (fun key =>
  rbind (index elements 1) (fun value =>
  Val (assignKey key value out))).

(** The [for s.Scan()] loop of [loadPgParams] over the remaining lines, up
    to its [return out, nil]. *)
Fixpoint scanLoop (lines : list string) (out : PostgresDb)
  : Result (PostgresDb * option error) :=
  match lines with
  | [] => Val (out, None)
  | line :: rest =>
      match scanStep line out with
      | Val (out', None) => scanLoop rest out'
      | stop => stop
      end
  end.

(** Modelled from the spec: the reader of a client/server descriptor, which
    the repository does not contain (the descriptor is handed to the
    PostgreSQL driver).  The descriptor is "a single string of
    space-separated key=value tokens among {user, password, dbname, host,
    port, sslmode}": it is cut at the spaces, each token is cut at its first
    '=', and the fields are assigned in order as the loader of the
    configuration file assigns them; a token without '=' names no key and is
    passed over. *)
Definition parseToken (token : string) (out : PostgresDb) : PostgresDb :=
  match strings.Split token "=" with
  | key :: value :: _ => fst (assignKey key value out)
  | _ => out
  end.

Definition parseDescriptor (descriptor : string) : PostgresDb :=
  fold_left (fun out token => parseToken token out)
            (strings.Split descriptor " ") zeroPostgresDb.

(* ================================================================== *)
(** ** databaseAccess.go *)

(** [printStackTrace]: the frames when the error carries a stack trace, then
    the error itself. *)
Definition printStackTrace (err : error) : M unit :=
  (if errors.hasStackTrace err then emit StackFrames else ret tt) ;;
  fmt.Println (errors.Error err).

Definition initDb (dbfile : string) : M (error + DB) :=
  err <- os.Remove dbfile ;;
  match err with
  | Some _ =>
      log.Printf ("There is no existing database '" ++ dbfile
                  ++ "'. Nothing to delete.")
  | None => ret tt
  end ;;
  r <- sql.Open "sqlite3" dbfile ;;
  match r with
  | inl err => ret (inl (errors.Wrap err "Failed to open the database."))
  | inr db => ret (inr db)
  end.

Definition createSampleTable (db : DB) : M (option error) :=
  r <- sql.DB_Exec db CreateTableFoo ;;
  match r with
  | inl err =>
      ret (Some (errors.Wrap err "Failed to create the sample table in the database."))
  | inr _ => ret None
  end.

Definition deleteSampleTableIfExists (db : DB) : M (option error) :=
  fmt.Println "Dropping table foo if it exists..." ;;
  r <- sql.DB_Exec db DropTableIfExistsFoo ;;
  match r with
  | inl err => ret (Some (errors.Wrap err "Failed to execute drop statement"))
  | inr _ => ret None
  end.

(** The row the loop of [insertSampleData] sends at index [i]. *)
Definition sampleRow (i : Z) : Row :=
  (i, fmt.Sprintf_03d_extra i (fmt.Sprintf_nom03d i)).

(** The loop [for i := ...; i < bound; i++] of [insertSampleData], with
    [n] turns left and [i] the current index. *)
Fixpoint insertSampleRows (stmt : Stmt) (i : Z) (n : nat) : M (option error) :=
  match n with
  | O => ret None
  | S n' =>
      let name := fmt.Sprintf_nom03d i in
      r <- sql.Stmt_Exec stmt i (fmt.Sprintf_03d_extra i name) ;;
      match r with
      | inl err =>
          ret (Some (errors.Wrap err "Failed to insert sample data in the sample table."))
      | inr _ => insertSampleRows stmt (i + 1) n'
      end
  end.

(** [insertSampleData] with the bound of its loop, 10 in the source, as a
    parameter. *)
Definition insertSampleDataN (n : nat) (db : DB) : M (option error) :=
  fmt.Println "Inserting sample data (10 rows)" ;;
  r <- sql.DB_Begin db ;;
  match r with
  | inl err => ret (Some (errors.Wrap err "Failed to create a transaction.."))
  | inr t =>
      r <- sql.Tx_Prepare t InsertIntoFooParams ;;
      match r with
      | inl err => ret (Some (errors.Wrap err "Failed to create prepared statement."))
      | inr stmt =>
          defer (sql.Stmt_Close stmt)
            (err <- insertSampleRows stmt 0 n ;;
             match err with
             | Some e => ret (Some e)
             | None =>
                 err <- sql.Tx_Commit t ;;
                 match err with
                 | Some e => ret (Some (errors.Wrap e "Failed to commit the transaction."))
                 | None => ret None
                 end
             end)
      end
  end.

Definition insertSampleData (db : DB) : M (option error) :=
  insertSampleDataN 10 db.

(** The loop [for rows.Next() { rows.Scan(&id, &name); fmt.Println(id, name) }]
    with the message its scan error is wrapped in. *)
Fixpoint printRows (sc : list (error + Row)) (scanMsg : string) : M (option error) :=
  match sc with
  | [] => ret None
  | inl err :: _ => ret (Some (errors.Wrap err scanMsg))
  | inr (id, name) :: rest =>
      fmt.Println (fmt.Sprintln2 id name) ;;
      printRows rest scanMsg
  end.

Definition selectDataInSampleTable (db : DB) : M (option error) :=
  r <- sql.DB_Query db SelectFoo ;;
  match r with
  | inl err => ret (Some (errors.Wrap err "Failed to prepare select query."))
  | inr rows =>
      defer (sql.Rows_Close rows)
        (err <- printRows (scans rows) "failed to scan output of query." ;;
         match err with
         | Some e => ret (Some e)
         | None =>
             match rowsErr rows with
             | Some e => ret (Some (errors.Wrap e "error in the select query."))
             | None => ret None
             end
         end)
  end.

Definition cleanupSampleTabledb (db : DB) : M (option error) :=
  r <- sql.DB_Exec db DeleteFromFoo ;;
  match r with
  | inl err => ret (Some (errors.Wrap err "failed to delete rows from the table foo"))
  | inr _ => ret None
  end.

Definition literalRows : list Row := [(1, "foo"); (2, "bar"); (3, "baz")].

Definition insertDataAndSelectThem (db : DB) : M (option error) :=
  r <- sql.DB_Exec db (InsertIntoFooValues literalRows) ;;
  match r with
  | inl err => ret (Some (errors.Wrap err "failed to insert data into table foo"))
  | inr _ =>
      r <- sql.DB_Query db SelectFoo ;;
      match r with
      | inl err => ret (Some (errors.Wrap err "failed to query table foo"))
      | inr rows =>
          defer (sql.Rows_Close rows)
            (err <- printRows (scans rows) "Failed to read values from the row." ;;
             match err with
             | Some e => ret (Some e)
             | None =>
                 match rowsErr rows with
                 | Some e =>
                     ret (Some (errors.Wrap e "Error happened while reading the rows."))
                 | None => ret None
                 end
             end)
      end
  end.

Definition connectToPostgres (connStr : string) : M (error + DB) :=
  r <- sql.Open "postgres" connStr ;;
  match r with
  | inl err =>
      ret (inl (errors.Wrap err
                  ("Failed to connect to the database with parameters '" ++ connStr ++ "'")))
  | inr db => ret (inr db)
  end.

(** The recurring [err = stage; if err != nil { printStackTrace(err); return }]. *)
Definition orReport (stage : M (option error)) (next : M unit) : M unit :=
  err <- stage ;;
  match err with
  | Some e => printStackTrace e
  | None => next
  end.

Definition showExamplesWithSqlLite : M unit :=
  fmt.Println "Showing output from statements ran against SqlLite." ;;
  fmt.Println "===================================================" ;;
  let dbfile := "./foo.db" in
  r <- initDb dbfile ;;
  match r with
  | inl err => printStackTrace err
  | inr db =>
      defer (sql.DB_Close db)
        (orReport (createSampleTable db)
        (orReport (insertSampleData db)
        (orReport (selectDataInSampleTable db)
        (orReport (cleanupSampleTabledb db)
        (orReport (insertDataAndSelectThem db)
        (ret tt))))))
  end.

(** The loop over the rows of [spatial_ref_sys] at the end of
    [showExamplesWithPostgres]. *)
Fixpoint printSpatialRefs (sc : list (error + Row)) : M unit :=
  match sc with
  | [] => ret tt
  | inl err :: _ => log.Fatal err
  | inr (srid, proj4text) :: rest =>
      fmt.Println (fmt.Sprintln_Test srid proj4text) ;;
      printSpatialRefs rest
  end.

Definition showExamplesWithPostgres (dbParams : PostgresDb) : M unit :=
  fmt.Println "Showing output from statements ran against PostgreSQL." ;;
  fmt.Println "======================================================" ;;
  let connStr := buildConnectionString dbParams in
  r <- connectToPostgres connStr ;;
  match r with
  | inl err => printStackTrace err
  | inr db =>
      fmt.Println "Connected to the PostgreSQL database. Proceeding" ;;
      defer (sql.DB_Close db)
        (orReport (deleteSampleTableIfExists db)
        (orReport (createSampleTable db)
        (err <- insertSampleData db ;;
         match err with
         | Some e => fmt.Println (errors.Error e) ;; printStackTrace e
         | None =>
             orReport (selectDataInSampleTable db)
               (r <- sql.DB_Query db SelectSpatialRefSys ;;
                match r with
                | inl err => log.Fatal err
                | inr rows =>
                    defer (sql.Rows_Close rows) (printSpatialRefs (scans rows))
                end)
         end)))
  end.

Definition loadPgParams (pgfile : string) : M (PostgresDb * option error) :=
  fmt.Println ("Using file '" ++ pgfile ++ "' as parameters to connect to PostgreSQL.") ;;
  r <- os.Open pgfile ;;
  let out := zeroPostgresDb in
  match r with
  | inl err =>
      ret (out, Some (errors.Wrap err
        "cannot open configuration file containing informations to connect to the database"))
  | inr f => defer os.Close (liftR (scanLoop (bufio.ScanLines f) out))
  end.

(** The parameters [main] starts from. *)
Definition defaultParams : PostgresDb :=
  mkPostgresDb "localhost" 5432 "postgres" "docker" "docker" "require".

(** [main], with [os.Args] as its argument. *)
Definition main (args : list string) : M unit :=
  showExamplesWithSqlLite ;;
  match args with
  | _ :: pgfile :: _ =>
      r <- loadPgParams pgfile ;;
      match r with
      | (_, Some err) =>
          fmt.Println ("Failed to load database properties to connect: "
                       ++ errors.Error err)
      | (params, None) => showExamplesWithPostgres params
      end
  | _ => showExamplesWithPostgres defaultParams
  end.

(* ================================================================== *)
(** ** The point lookup of the earlier version of the program *)

(** The lookup in the single-function [main] that [databaseAccess.go]
    replaced: [db.Prepare("select name from foo where id = ?")], then
    [stmt.QueryRow("3").Scan(&name)] and [fmt.Println(name)], each error
    going to [log.Fatal].  (The statement is closed by a deferred call when
    that [main] returns.) *)
Definition pointLookup (db : DB) : M unit :=
  r <- sql.DB_Prepare db SelectNameWhereId ;;
  match r with
  | inl err => log.Fatal err
  | inr stmt =>
      r <- sql.Stmt_QueryRow_Scan stmt "3" ;;
      match r with
      | inl err => log.Fatal err
      | inr name => fmt.Println name
      end
  end.

(* ================================================================== *)
(** ** Stages of a run *)

Inductive Stage : Type :=
| StOpen
| StDropIfExists
| StCreateSchema
| StTxInsert
| StSelectAll
| StPointLookup
| StDeleteAll
| StLiteralInsert
| StSpatialRefQuery
| StClose.

(** The stage a call opens; the other calls belong to the stage under way
    ([os.Remove] to the open that follows it). *)
Definition stageOf (c : Call) : option Stage :=
  match c with
  | SqlOpen _ _ => Some StOpen
  | DbExec _ DropTableIfExistsFoo => Some StDropIfExists
  | DbExec _ CreateTableFoo => Some StCreateSchema
  | DbBegin _ => Some StTxInsert
  | DbQuery _ SelectFoo => Some StSelectAll
  | DbPrepare _ SelectNameWhereId => Some StPointLookup
  | DbExec _ DeleteFromFoo => Some StDeleteAll
  | DbExec _ (InsertIntoFooValues _) => Some StLiteralInsert
  | DbQuery _ SelectSpatialRefSys => Some StSpatialRefQuery
  | DbClose _ => Some StClose
  | _ => None
  end.

Fixpoint stages (cs : list Call) : list Stage :=
  match cs with
  | [] => []
  | c :: rest =>
      match stageOf c with
      | Some s => s :: stages rest
      | None => stages rest
      end
  end.

(** The pipeline as the specification lists it. *)
Definition specPipeline : list Stage :=
  [StOpen; StDropIfExists; StCreateSchema; StTxInsert; StSelectAll;
   StPointLookup; StDeleteAll; StLiteralInsert; StSelectAll; StClose].

(** A world in which nothing has happened yet. *)
Definition freshWorld (files : list (string * File)) (server : option Store) : World :=
  mkWorld files server None [] [] [].

(* ================================================================== *)
(** ** Definitions the statements below use *)

(** The keys the [switch] of [loadPgParams] has a case for. *)
Definition recognizedKeys : list string :=
  ["user"; "password"; "dbname"; "host"; "port"; "sslmode"].

(** A value "truncated at the first occurrence of '='": what stands before
    that occurrence, the whole value when there is none. *)
Fixpoint truncateAtEq (v : string) : string :=
  match v with
  | EmptyString => EmptyString
  | String c rest => if Ascii.eqb c "=" then EmptyString else String c (truncateAtEq rest)
  end.

(** The line of a configuration file for a key and a value. *)
Definition kvLine (kv : string * string) : string := fst kv ++ "=" ++ snd kv.

(** The value a file gives to a key: the one of its last line for that key. *)
Fixpoint lastValue (key : string) (kvs : list (string * string)) : option string :=
  match kvs with
  | [] => None
  | (k, v) :: rest =>
      match lastValue key rest with
      | Some v' => Some v'
      | None => if String.eqb k key then Some v else None
      end
  end.

Definition textOr (v : option string) (default : string) : string :=
  match v with Some s => s | None => default end.

Definition portOr (v : option string) (default : Z) : Z :=
  match v with Some s => fst (strconv.Atoi s) | None => default end.

(** The parameters a list of key/value pairs stands for: each field holds
    the value given for its key, the field of [base] when the key does not
    occur. *)
Definition paramsOf (kvs : list (string * string)) (base : PostgresDb) : PostgresDb :=
  mkPostgresDb
    (textOr (lastValue "host" kvs) (host base))
    (portOr (lastValue "port" kvs) (port base))
    (textOr (lastValue "dbname" kvs) (dbname base))
    (textOr (lastValue "user" kvs) (user base))
    (textOr (lastValue "password" kvs) (password base))
    (textOr (lastValue "sslmode" kvs) (sslmode base)).

(** A well-formed line: a recognized key, a value without '=', and for the
    port a value [strconv.Atoi] accepts. *)
Definition wellFormed (kv : string * string) : Prop :=
  In (fst kv) recognizedKeys
  /\ strings.Contains (snd kv) "=" = false
  /\ (fst kv = "port" -> snd (strconv.Atoi (snd kv)) = None).

(** Calls of the prepared insert. *)
Definition isStmtExec (c : Call) : Prop :=
  match c with StmtExec _ _ => True | _ => False end.

(** The rows [insertSampleData] sends from index [i] on, [n] of them. *)
Fixpoint sampleRows (i : Z) (n : nat) : list Row :=
  match n with
  | O => []
  | S n' => sampleRow i :: sampleRows (i + 1) n'
  end.

(** The line [fmt.Println(id, name)] prints for a row. *)
Definition rowLine (r : Row) : Output := Stdout (fmt.Sprintln2 (fst r) (snd r)).

(** The call [stmt.Exec(id, name)] makes for a row. *)
Definition execCall (r : Row) : Call := StmtExec (fst r) (snd r).

(** The line [fmt.Println("Test: ", srid, proj4text)] prints for a row. *)
Definition testLine (r : Row) : Output := Stdout (fmt.Sprintln_Test (fst r) (snd r)).

(** What [initDb] logs when there is no file to remove. *)
Definition removalNote (dbfile : string) : Output :=
  Stderr ("There is no existing database '" ++ dbfile ++ "'. Nothing to delete.").

(** [m] run in [w] returns: it ends with a value (not with [os.Exit], not
    with a panic), and value and final world satisfy [post]. *)
Definition returns {A} (m : M A) (w : World) (post : A -> World -> Prop) : Prop :=
  exists a w1, m w = (Val a, w1) /\ post a w1.

(** [m] run in [w] leaves the process through [os.Exit(code)]. *)
Definition exits {A} (m : M A) (w : World) (code : Z) (post : World -> Prop) : Prop :=
  exists w1, m w = (Exit code, w1) /\ post w1.

(** [m] returns in every world. *)
Definition total {A} (m : M A) : Prop :=
  forall w, returns m w (fun _ _ => True).

(** What a step that succeeds leaves: no fault pending, no transaction
    open, and its output and calls added to the logs. *)
Definition stepped (w w1 : World) (out : list Output) (cs : list Call) : Prop :=
  faults w1 = [] /\ tx w1 = None
  /\ output w1 = (output w ++ out)%list /\ calls w1 = (calls w ++ cs)%list.

(** The handle [showExamplesWithSqlLite] works with. *)
Definition sqliteDb : DB := mkDB sqlite3 "./foo.db".

(** The calls of a run of [insertSampleData] in which nothing fails. *)
Definition insertCalls (db : DB) : list Call :=
  ([DbBegin db; TxPrepare InsertIntoFooParams]
     ++ map execCall (sampleRows 0 10) ++ [TxCommit; StmtClose])%list.

(** The calls of a run of [showExamplesWithSqlLite] in which nothing fails. *)
Definition sqliteCalls : list Call :=
  ([OsRemove "./foo.db"; SqlOpen "sqlite3" "./foo.db";
    DbExec sqliteDb CreateTableFoo]
     ++ insertCalls sqliteDb
     ++ [DbQuery sqliteDb SelectFoo; RowsClose;
         DbExec sqliteDb DeleteFromFoo;
         DbExec sqliteDb (InsertIntoFooValues literalRows);
         DbQuery sqliteDb SelectFoo; RowsClose;
         DbClose sqliteDb])%list.

(** What [showExamplesWithPostgres] has printed, and the calls it has made,
    when it comes to read the rows of [spatial_ref_sys]. *)
Definition postgresOutputBefore : list Output :=
  ([Stdout "Showing output from statements ran against PostgreSQL.";
    Stdout "======================================================";
    Stdout "Connected to the PostgreSQL database. Proceeding";
    Stdout "Dropping table foo if it exists...";
    Stdout "Inserting sample data (10 rows)"]
     ++ map rowLine (sampleRows 0 10))%list.

Definition postgresCallsBefore (p : PostgresDb) : list Call :=
  let db := mkDB postgres (buildConnectionString p) in
  ([SqlOpen "postgres" (buildConnectionString p);
    DbExec db DropTableIfExistsFoo;
    DbExec db CreateTableFoo]
     ++ insertCalls db
     ++ [DbQuery db SelectFoo; RowsClose;
         DbQuery db SelectSpatialRefSys])%list.

(** The calls of a run of [showExamplesWithPostgres] in which nothing fails. *)
Definition postgresCalls (p : PostgresDb) : list Call :=
  let db := mkDB postgres (buildConnectionString p) in
  ([SqlOpen "postgres" (buildConnectionString p);
    DbExec db DropTableIfExistsFoo;
    DbExec db CreateTableFoo]
     ++ insertCalls db
     ++ [DbQuery db SelectFoo; RowsClose;
         DbQuery db SelectSpatialRefSys; RowsClose;
         DbClose db])%list.

(* ================================================================== *)
(** ** Lemmas on strings *)

Lemma Split_not_nil (s : string) (c : ascii) : strings.Split s c <> [].
Proof.
  destruct s as [|a s]; simpl; [discriminate|].
  destruct (Ascii.eqb a c); [discriminate|].
  destruct (strings.Split s c); discriminate.
Qed.

Lemma Split_no_sep (s : string) (c : ascii) :
  strings.Contains s c = false -> strings.Split s c = [s].
Proof.
  induction s as [|a s IH]; simpl; intros H; [reflexivity|].
  apply orb_false_iff in H as [Ha Hs].
  rewrite Ha, (IH Hs). reflexivity.
Qed.

Lemma Split_app_sep (a b : string) (c : ascii) :
  strings.Split (a ++ String c b) c = (strings.Split a c ++ strings.Split b c)%list.
Proof.
  induction a as [|x a IH]; simpl.
  - rewrite Ascii.eqb_refl. reflexivity.
  - destruct (Ascii.eqb x c).
    + rewrite IH. reflexivity.
    + rewrite IH. pose proof (Split_not_nil a c) as Hne.
      destruct (strings.Split a c); [contradiction|reflexivity].
Qed.

Lemma Split_key_rest (key rest : string) :
  strings.Contains key "=" = false ->
  strings.Split (key ++ "=" ++ rest) "=" = key :: strings.Split rest "=".
Proof.
  intros H. change (key ++ "=" ++ rest) with (key ++ String "=" rest).
  rewrite Split_app_sep, (Split_no_sep _ _ H). reflexivity.
Qed.

Lemma Split_hd (v : string) :
  exists pieces, strings.Split v "=" = truncateAtEq v :: pieces.
Proof.
  induction v as [|x v [pieces IH]]; simpl.
  - now exists [].
  - destruct (Ascii.eqb x "=").
    + now eexists.
    + rewrite IH. now eexists.
Qed.



Lemma truncateAtEq_id (v : string) :
  strings.Contains v "=" = false -> truncateAtEq v = v.
Proof.
  induction v as [|x v IH]; simpl; intros H; [reflexivity|].
  apply orb_false_iff in H as [Hx Hv]. now rewrite Hx, IH.
Qed.

(* ================================================================== *)
(** ** Lemmas on the loop of loadPgParams *)

Lemma scanStep_kv (key rest : string) (out : PostgresDb) :
  strings.Contains key "=" = false ->
  scanStep (key ++ "=" ++ rest) out = Val (assignKey key (truncateAtEq rest) out).
Proof.
  intros H. unfold scanStep. rewrite (Split_key_rest _ _ H).
  destruct (Split_hd rest) as [pieces ->]. reflexivity.
Qed.

Lemma scanStep_no_eq (line : string) (out : PostgresDb) :
  strings.Contains line "=" = false ->
  scanStep line out = Panic (IndexOutOfRange 1 1).
Proof.
  intros H. unfold scanStep. rewrite (Split_no_sep _ _ H). reflexivity.
Qed.

Lemma scanLoop_app (pre rest : list string) (out out' : PostgresDb) :
  scanLoop pre out = Val (out', None) ->
  scanLoop (pre ++ rest)%list out = scanLoop rest out'.
Proof.
  revert out. induction pre as [|l pre IH]; simpl; intros out H.
  - now inversion H.
  - destruct (scanStep l out) as [[o [e|]]| |]; try discriminate.
    now apply IH.
Qed.


Lemma assignKey_error (key value : string) (out out' : PostgresDb) (e : error) :
  assignKey key value out = (out', Some e) ->
  key = "port" /\ snd (strconv.Atoi value) <> None
  /\ out' = set_port (fst (strconv.Atoi value)) out
  /\ e = ErrNew (portErrorMsg value).
Proof.
  unfold assignKey.
  repeat match goal with
  | |- context [String.eqb key ?k] => destruct (String.eqb_spec key k) as [->|_]
  end; try discriminate.
  destruct (strconv.Atoi value) as [n [ne|]]; simpl; [|discriminate].
  intros H. inversion H. repeat split; congruence.
Qed.

(** Symbolic execution of the monad: the combinators and the record
    updates are unfolded, the projections of [World] are computed. *)
Ltac run :=
  repeat (cbv beta iota zeta delta
            [bind ret liftR defer emit called nextFault orReport
             set_fs set_pg set_tx set_faults set_output set_calls
             fmt.Println log.Printf log.Fatal os.Remove os.Open os.Close
             sql.attempt sql.Open sql.DB_Exec sql.DB_Begin sql.Tx_Prepare
             sql.Stmt_Exec sql.Stmt_Close sql.Tx_Commit sql.Tx_Rollback
             sql.DB_Query sql.Rows_Close sql.DB_Prepare sql.Stmt_QueryRow_Scan
             sql.DB_Close errors.Wrap errors.New];
          cbn [fst snd fs pg tx faults output calls option_map
               driver dataSourceName tx_db stmt_db stmt_sql scans rowsErr]).

Lemma loadPgParams_reads (pgfile content : string) (w : World) :
  lookupFile pgfile (fs w) = Some (TextFile content) ->
  fst (loadPgParams pgfile w) = scanLoop (bufio.ScanLines content) zeroPostgresDb.
Proof.
  intros H. unfold loadPgParams. run. rewrite H. run.
  destruct (scanLoop (bufio.ScanLines content) zeroPostgresDb); reflexivity.
Qed.

Lemma string_app_assoc (a b c : string) : (a ++ b) ++ c = a ++ (b ++ c).
Proof. induction a as [|x a IH]; simpl; [reflexivity|now rewrite IH]. Qed.

Lemma parseDescriptor_last (prefix token : string) :
  strings.Contains token " " = false ->
  parseDescriptor (prefix ++ String " " token)
  = parseToken token (parseDescriptor prefix).
Proof.
  intros H. unfold parseDescriptor.
  rewrite Split_app_sep, fold_left_app, (Split_no_sep _ _ H). reflexivity.
Qed.

Lemma buildConnectionString_last (p : PostgresDb) :
  exists prefix,
    buildConnectionString p = prefix ++ String " " ("sslmode=" ++ sslmode p).
Proof.
  unfold buildConnectionString.
  exists ("user=" ++ user p ++ " password=" ++ password p ++ " dbname=" ++ dbname p
          ++ " host=" ++ host p ++ " port=" ++ strconv.Itoa (port p)).
  repeat rewrite string_app_assoc. reflexivity.
Qed.

(* ================================================================== *)
(** ** The configuration file *)

(** C10.  A line without '=' stops the loader with a runtime panic: the line
    splits into one piece, [elements[1]] is out of range, and
    [loadPgParams] ends with "index out of range [1] with length 1" instead
    of returning an error or going on to the next line.  The line may be the
    empty one; the lines before it are read without error. *)
Theorem C10_line_without_equals_panics :
  forall (pgfile content : string) (w : World)
         (pre post : list string) (line : string) (out : PostgresDb),
    lookupFile pgfile (fs w) = Some (TextFile content) ->
    bufio.ScanLines content = (pre ++ line :: post)%list ->
    scanLoop pre zeroPostgresDb = Val (out, None) ->
    strings.Contains line "=" = false ->
    strings.Split line "=" = [line]
    /\ scanStep line out = Panic (IndexOutOfRange 1 1)
    /\ fst (loadPgParams pgfile w) = Panic (IndexOutOfRange 1 1).
Proof.
  intros pgfile content w pre post line out Hfile Hlines Hpre Hline.
  split; [now apply Split_no_sep|].
  split; [now apply scanStep_no_eq|].
  rewrite (loadPgParams_reads _ _ _ Hfile), Hlines, (scanLoop_app _ _ _ _ Hpre).
  simpl. now rewrite scanStep_no_eq.
Qed.

(** An empty second line in the file. *)
Lemma C10_witness :
  let content := "user=a" ++ String bufio.LF (String bufio.LF "port=1") in
  let w := freshWorld [("pg.conf", TextFile content)] None in
  strings.Split "" "=" = [""]
  /\ scanStep "" (set_user "a" zeroPostgresDb) = Panic (IndexOutOfRange 1 1)
  /\ fst (loadPgParams "pg.conf" w) = Panic (IndexOutOfRange 1 1).
Proof.
  intros content w.
  apply (C10_line_without_equals_panics "pg.conf" content w
           ["user=a"] ["port=1"] "" (set_user "a" zeroPostgresDb));
    reflexivity.
Defined.



(** C8.  The descriptor built from parameters whose sslmode is "require",
    read back token by token, gives the sslmode "require" again: the
    descriptor ends with the token [sslmode=require], which is read last. *)
Theorem C8_sslmode_roundtrip :
  forall p : PostgresDb,
    sslmode p = "require" ->
    sslmode (parseDescriptor (buildConnectionString p)) = "require".
Proof.
  intros p H. destruct (buildConnectionString_last p) as [prefix ->].
  rewrite H, parseDescriptor_last by reflexivity. reflexivity.
Qed.

(** The parameters [main] starts from. *)
Lemma C8_witness :
  sslmode (parseDescriptor (buildConnectionString defaultParams)) = "require".
Proof. exact (C8_sslmode_roundtrip defaultParams eq_refl). Defined.

Lemma scanLoop_wellFormed (kvs : list (string * string)) (out : PostgresDb) :
  Forall wellFormed kvs ->
  scanLoop (map kvLine kvs) out = Val (paramsOf kvs out, None).
Proof.
  revert out. induction kvs as [|[k v] kvs IH]; intros out Hwf.
  - destruct out. reflexivity.
  - inversion Hwf as [|? ? (Hk & Hv & Hp) Hrest]; subst. cbn [fst snd] in *.
    cbn [map scanLoop]. unfold kvLine; cbn [fst snd].
    assert (Hkey : strings.Contains k "=" = false).
    { unfold recognizedKeys in Hk; simpl in Hk.
      repeat (destruct Hk as [<-|Hk]; [reflexivity|]). contradiction. }
    rewrite (scanStep_kv _ _ _ Hkey), (truncateAtEq_id _ Hv).
    unfold recognizedKeys in Hk; simpl in Hk.
    repeat (destruct Hk as [<-|Hk]);
      try contradiction;
      try (cbn [assignKey String.eqb Ascii.eqb Bool.eqb]; rewrite (IH _ Hrest);
           unfold paramsOf; cbn;
           repeat match goal with
           | |- context [lastValue ?f kvs] => destruct (lastValue f kvs)
           end; reflexivity).
    specialize (Hp eq_refl).
    unfold assignKey; cbn [String.eqb Ascii.eqb Bool.eqb].
    destruct (strconv.Atoi v) as [n [ne|]] eqn:E; [discriminate Hp|].
    rewrite (IH _ Hrest). unfold paramsOf.
    cbn [lastValue String.eqb Ascii.eqb Bool.eqb].
    repeat match goal with
    | |- context [lastValue ?f kvs] => destruct (lastValue f kvs)
    end; cbn [textOr portOr set_port host port dbname user password sslmode fst];
      rewrite ?E; reflexivity.
Qed.

Lemma scanLoop_error (lines : list string) (out cfg : PostgresDb) (e : error) :
  scanLoop lines out = Val (cfg, Some e) ->
  exists value, e = ErrNew (portErrorMsg value) /\ snd (strconv.Atoi value) <> None.
Proof.
  revert out. induction lines as [|l lines IH]; simpl; intros out H; [discriminate|].
  destruct (scanStep l out) as [[o [e'|]]| |] eqn:E; try discriminate.
  - inversion H; subst. unfold scanStep in E.
    destruct (index (strings.Split l "=") 0) as [key| |]; try discriminate.
    destruct (index (strings.Split l "=") 1) as [value| |]; try discriminate.
    simpl in E. inversion E as [E'].
    apply assignKey_error in E' as (_ & Hbad & _ & ->). now exists value.
  - now apply (IH o).
Qed.

(** C3, as the code has it.  The one check of the loader is that the port is
    an integer for [strconv.Atoi] (zero and negative numbers pass).  When a
    port is not, [loadPgParams] stops and returns an error whose message
    quotes the value, together with the parameters read so far and the port
    Atoi returned; no other line makes it return an error.  For a well-formed
    file it returns the parameters the lines of the file stand for. *)
Theorem C3_port_must_be_an_integer :
  forall (pgfile content : string) (w : World),
    lookupFile pgfile (fs w) = Some (TextFile content) ->
    (forall (pre post : list string) (value : string) (out : PostgresDb),
        bufio.ScanLines content = (pre ++ ("port=" ++ value)%string :: post)%list ->
        scanLoop pre zeroPostgresDb = Val (out, None) ->
        strings.Contains value "=" = false ->
        snd (strconv.Atoi value) <> None ->
        fst (loadPgParams pgfile w)
        = Val (set_port (fst (strconv.Atoi value)) out,
               Some (ErrNew ("The port you have set '" ++ value
                  ++ "' for the database is not an integer. Please fix the configuration."))))
    /\ (forall (cfg : PostgresDb) (e : error),
          fst (loadPgParams pgfile w) = Val (cfg, Some e) ->
          exists value, e = ErrNew (portErrorMsg value)
                        /\ snd (strconv.Atoi value) <> None)
    /\ (forall kvs : list (string * string),
          bufio.ScanLines content = map kvLine kvs ->
          Forall wellFormed kvs ->
          fst (loadPgParams pgfile w) = Val (paramsOf kvs zeroPostgresDb, None)).
Proof.
  intros pgfile content w Hfile.
  rewrite (loadPgParams_reads _ _ _ Hfile). repeat split.
  - intros pre post value out Hlines Hpre Hv Hbad.
    rewrite Hlines, (scanLoop_app _ _ _ _ Hpre). cbn [scanLoop].
    change ("port=" ++ value) with ("port" ++ "=" ++ value).
    rewrite (scanStep_kv "port" value out eq_refl), (truncateAtEq_id _ Hv).
    unfold assignKey; cbn [String.eqb Ascii.eqb Bool.eqb].
    destruct (strconv.Atoi value) as [n [ne|]]; [reflexivity|].
    now contradiction Hbad.
  - intros cfg e H. now apply scanLoop_error in H.
  - intros kvs Hlines Hwf. rewrite Hlines. now apply scanLoop_wellFormed.
Qed.

(** A file with the bad port [abc] after a user line, and a well-formed
    file. *)
Lemma C3_witness :
  let bad := "user=bob" ++ String bufio.LF "port=abc" in
  let good := "user=bob" ++ String bufio.LF ("port=5432" ++ String bufio.LF "user=eve") in
  fst (loadPgParams "pg.conf" (freshWorld [("pg.conf", TextFile bad)] None))
  = Val (mkPostgresDb "" 0 "" "bob" "" "",
         Some (ErrNew "The port you have set 'abc' for the database is not an integer. Please fix the configuration."))
  /\ fst (loadPgParams "pg.conf" (freshWorld [("pg.conf", TextFile good)] None))
     = Val (mkPostgresDb "" 5432 "" "eve" "" "", None).
Proof.
  intros bad good. split.
  - apply (proj1 (C3_port_must_be_an_integer "pg.conf" bad
                    (freshWorld [("pg.conf", TextFile bad)] None) eq_refl)
             ["user=bob"] [] "abc" (set_user "bob" zeroPostgresDb));
      [reflexivity|reflexivity|reflexivity|discriminate].
  - apply (proj2 (proj2 (C3_port_must_be_an_integer "pg.conf" good
                    (freshWorld [("pg.conf", TextFile good)] None) eq_refl))
             [("user", "bob"); ("port", "5432"); ("user", "eve")]);
      [reflexivity|].
    repeat constructor; simpl; try tauto; discriminate.
Defined.

(** C3 as stated fails twice: a port of -5 is accepted although it is not a
    positive integer, and after [user=bob] the bad port [abc] comes back
    with parameters that are not the zero value. *)
Lemma C3_counterexample :
  fst (loadPgParams "pg.conf" (freshWorld [("pg.conf", TextFile "port=-5")] None))
  = Val (mkPostgresDb "" (-5) "" "" "" "", None)
  /\ fst (loadPgParams "pg.conf"
            (freshWorld [("pg.conf",
                          TextFile ("user=bob" ++ String bufio.LF "port=abc"))] None))
     = Val (mkPostgresDb "" 0 "" "bob" "" "", Some (ErrNew (portErrorMsg "abc")))
  /\ mkPostgresDb "" 0 "" "bob" "" "" <> zeroPostgresDb.
Proof. repeat split; try reflexivity. discriminate. Qed.

(* ================================================================== *)
(** ** Lemmas on files and tables *)

Lemma lookupFile_removeFile (path : string) (files : list (string * File)) :
  lookupFile path (removeFile path files) = None.
Proof.
  induction files as [|[p f] files IH]; simpl; [reflexivity|].
  destruct (String.eqb p path) eqn:E; [exact IH|]. simpl. now rewrite E.
Qed.

Lemma removeFile_absent (path : string) (files : list (string * File)) :
  lookupFile path files = None -> removeFile path files = files.
Proof.
  induction files as [|[p f] files IH]; simpl; [reflexivity|].
  destruct (String.eqb p path); [discriminate|]. intros H. now rewrite IH.
Qed.


(* ================================================================== *)
(** ** insertSampleData *)

Lemma insertSampleRows_quiet (stmt : Stmt) (n : nat) :
  forall (i : Z) (w : World),
  exists r w',
    insertSampleRows stmt i n w = (Val r, w')
    /\ fs w' = fs w /\ pg w' = pg w /\ output w' = output w
    /\ (tx w <> None -> tx w' <> None)
    /\ (exists cs, calls w' = (calls w ++ cs)%list /\ Forall isStmtExec cs)
    /\ (r = None
        \/ exists e, r = Some (ErrWrap e "Failed to insert sample data in the sample table.")).
Proof.
  induction n as [|n IH]; intros i w.
  - exists None, w. cbn. repeat split; auto.
    exists []. now rewrite app_nil_r.
  - destruct w as [f p t fl o c]. cbn [insertSampleRows]. run.
    assert (Hfail : forall e fl',
      exists (r : option error) (w' : World),
        (Val (Some (ErrWrap e "Failed to insert sample data in the sample table.")),
         mkWorld f p t fl' o (c ++ [StmtExec i (fmt.Sprintf_03d_extra i (fmt.Sprintf_nom03d i))])%list)
        = (Val r, w')
        /\ fs w' = f /\ pg w' = p /\ output w' = o
        /\ (t <> None -> tx w' <> None)
        /\ (exists cs, calls w' = (c ++ cs)%list /\ Forall isStmtExec cs)
        /\ (r = None \/ exists e0, r = Some (ErrWrap e0 "Failed to insert sample data in the sample table."))).
    { intros e fl'. eexists _, _. split; [reflexivity|]. cbn.
      repeat split; auto.
      - eexists; split; [reflexivity|]. repeat constructor.
      - right. now eexists. }
    destruct fl as [|[m|] fl]; run; try apply Hfail;
      (destruct t as [pending|]; [|apply Hfail]);
      (destruct (load (stmt_db stmt) _) as [e|st] eqn:El; [apply Hfail|]);
      (destruct (stmt_sql stmt); try apply Hfail);
      (destruct (foo st) as [t0|]; [|apply Hfail]);
      (destruct (hasId i (t0 ++ pending)%list); [apply Hfail|]).
    all: match goal with
         | |- context [insertSampleRows _ ?j _ ?W] =>
             destruct (IH j W) as (r & w' & E & Hf & Hp & Ho & Ht & (cs & Hc & Hcs) & Hr)
         end;
         rewrite E; exists r, w'; cbn in *;
         repeat split; auto;
         [intros _; apply Ht; discriminate
         |eexists; split; [rewrite Hc, <- app_assoc; reflexivity|constructor; [exact I|exact Hcs]]].
Qed.

(* ================================================================== *)
(** ** Reasoning on runs *)

Lemma returns_ret {A} (a : A) (w : World) (post : A -> World -> Prop) :
  post a w -> returns (ret a) w post.
Proof. intros H. now exists a, w. Qed.

Lemma returns_bind {A B} (m : M A) (k : A -> M B) (w : World)
      (post : B -> World -> Prop) :
  returns m w (fun a w1 => returns (k a) w1 post) -> returns (bind m k) w post.
Proof.
  intros (a & w1 & Hm & b & w2 & Hk & Hpost). exists b, w2. split; [|exact Hpost].
  unfold bind. now rewrite Hm.
Qed.

Lemma returns_weaken {A} (m : M A) (w : World) (p q : A -> World -> Prop) :
  returns m w p -> (forall a w1, p a w1 -> q a w1) -> returns m w q.
Proof. intros (a & w1 & Hm & Hp) H. exists a, w1. auto. Qed.

Lemma returns_defer {A} (d : M unit) (body : M A) (w : World)
      (post : A -> World -> Prop) :
  returns body w (fun a w1 => post a (snd (d w1))) -> returns (defer d body) w post.
Proof.
  intros (a & w1 & Hm & Hp). exists a, (snd (d w1)). split; [|exact Hp].
  unfold defer. now rewrite Hm.
Qed.

Lemma DB_Begin_any (db : DB) (w : World) :
  returns (sql.DB_Begin db) w (fun r w1 =>
    fs w1 = fs w /\ pg w1 = pg w /\ output w1 = output w
    /\ calls w1 = (calls w ++ [DbBegin db])%list
    /\ match r with inl _ => True | inr _ => tx w1 = Some [] end).
Proof.
  destruct w as [f p t fl o c]. unfold returns, sql.DB_Begin. run.
  destruct fl as [|[m|] fl]; run;
    try (destruct (load db _); [|destruct t]);
    eexists _, _; (split; [reflexivity|]); cbn; auto.
Qed.

Lemma Tx_Prepare_any (t : Tx) (q : Sql) (w : World) :
  returns (sql.Tx_Prepare t q) w (fun r w1 =>
    fs w1 = fs w /\ pg w1 = pg w /\ output w1 = output w
    /\ calls w1 = (calls w ++ [TxPrepare q])%list /\ tx w1 = tx w).
Proof.
  destruct w as [f p t0 fl o c]. unfold returns, sql.Tx_Prepare. run.
  destruct fl as [|[m|] fl]; run;
    try (destruct t0; [destruct (load (tx_db t) _) as [|st]; [|destruct q, (foo st)]|]);
    eexists _, _; (split; [reflexivity|]); cbn; auto.
Qed.

Lemma Tx_Commit_any (t : Tx) (w : World) :
  returns (sql.Tx_Commit t) w (fun r w1 =>
    output w1 = output w /\ calls w1 = (calls w ++ [TxCommit])%list
    /\ (r <> None -> fs w1 = fs w /\ pg w1 = pg w)).
Proof.
  destruct w as [f p t0 fl o c]. unfold returns, sql.Tx_Commit. run.
  destruct fl as [|[m|] fl]; run;
    (destruct t0; [try (destruct (load (tx_db t) _) as [|st]; [|destruct (foo st)])|]);
    eexists _, _; (split; [reflexivity|]);
    unfold save; try destruct (driver (tx_db t)); cbn;
    repeat split; auto; congruence.
Qed.

Lemma Forall_isStmtExec_not_in (cs : list Call) (c : Call) :
  Forall isStmtExec cs -> ~ isStmtExec c -> ~ In c cs.
Proof.
  intros H Hc Hin. rewrite Forall_forall in H. exact (Hc (H _ Hin)).
Qed.

Lemma insertSampleDataN_any (n : nat) (db : DB) (w : World) :
  returns (insertSampleDataN n db) w (fun r w1 =>
    (r <> None -> fs w1 = fs w /\ pg w1 = pg w)
    /\ (forall e, r = Some (ErrWrap e "Failed to insert sample data in the sample table.") ->
          tx w1 <> None
          /\ exists cs, calls w1 = (calls w ++ cs)%list
                        /\ ~ In TxCommit cs /\ ~ In TxRollback cs /\ In StmtClose cs)).
Proof.
  unfold insertSampleDataN.
  apply returns_bind. eexists tt, _. split; [reflexivity|].
  apply returns_bind. eapply returns_weaken; [apply DB_Begin_any|].
  cbn [fs pg tx output calls set_output fmt.Println emit].
  intros [e|t] w1 (Hf1 & Hp1 & Ho1 & Hc1 & Ht1).
  { apply returns_ret. split; [auto|]. intros e0 H. discriminate H. }
  apply returns_bind. eapply returns_weaken; [apply Tx_Prepare_any|].
  intros [e|stmt] w2 (Hf2 & Hp2 & Ho2 & Hc2 & Ht2).
  { apply returns_ret. split; [intros _; split; congruence|].
    intros e0 H. discriminate H. }
  apply returns_defer. apply returns_bind.
  destruct (insertSampleRows_quiet stmt n 0 w2)
    as (r & w3 & E & Hf3 & Hp3 & Ho3 & Ht3 & (cs & Hc3 & Hcs) & Hr).
  exists r, w3. split; [exact E|].
  destruct Hr as [->|[e ->]].
  - apply returns_bind. eapply returns_weaken; [apply Tx_Commit_any|].
    intros [e|] w4 (Ho4 & Hc4 & Hs4).
    + apply returns_ret. cbn. split.
      * intros _. destruct Hs4 as [Hf4 Hp4]; [discriminate|]. split; congruence.
      * intros e0 H. discriminate H.
    + apply returns_ret. split; [intros H; now contradiction H|].
      intros e0 H. discriminate H.
  - apply returns_ret. cbn. split; [intros _; split; congruence|].
    intros e0 _. split.
    + apply Ht3. rewrite Ht2, Ht1. discriminate.
    + exists ([DbBegin db; TxPrepare InsertIntoFooParams] ++ cs ++ [StmtClose])%list.
      split.
      * rewrite Hc3, Hc2, Hc1. now rewrite <- !app_assoc.
      * assert (Hno : forall c, ~ isStmtExec c -> c <> DbBegin db ->
                  c <> TxPrepare InsertIntoFooParams -> c <> StmtClose ->
                  ~ In c ([DbBegin db; TxPrepare InsertIntoFooParams] ++ cs ++ [StmtClose])%list).
        { intros c0 Hc0 H1 H2 H3 Hin. cbn in Hin.
          destruct Hin as [Hin|[Hin|Hin]]; [congruence|congruence|].
          apply in_app_or in Hin as [Hin|Hin].
          - exact (Forall_isStmtExec_not_in _ _ Hcs Hc0 Hin).
          - cbn in Hin. destruct Hin as [Hin|[]]. congruence. }
        repeat split.
        -- apply Hno; [exact (fun x => x)|discriminate..].
        -- apply Hno; [exact (fun x => x)|discriminate..].
        -- apply in_or_app; right. apply in_or_app; right. cbn. auto.
Qed.

Lemma hasId_fresh (i : Z) (t : list Row) :
  (forall r, In r t -> fst r < i) -> hasId i t = false.
Proof.
  intros H. unfold hasId. apply not_true_is_false. intros E.
  apply existsb_exists in E as (r & Hin & Heq).
  apply Z.eqb_eq in Heq. specialize (H r Hin). lia.
Qed.

Lemma load_save (db : DB) (st : Store) (w : World) :
  load db (save db st w) = inr st.
Proof.
  unfold load, save. destruct (driver db); cbn; [|reflexivity].
  now rewrite String.eqb_refl.
Qed.

Lemma scanResults_no_fault (rows : list Row) :
  scanResults rows [] = (map inr rows, []).
Proof.
  induction rows as [|r rows IH]; cbn; [reflexivity|]. now rewrite IH.
Qed.

Lemma insertSampleRows_ok (db : DB) (n : nat) :
  forall (i : Z) (w : World) (pending : list Row) (st : Store) (t0 : list Row),
    faults w = [] -> tx w = Some pending ->
    load db w = inr st -> foo st = Some t0 ->
    (forall r, In r (t0 ++ pending)%list -> fst r < i) ->
    returns (insertSampleRows (mkStmt db InsertIntoFooParams) i n) w (fun r w1 =>
      r = None /\ fs w1 = fs w /\ pg w1 = pg w /\ faults w1 = []
      /\ output w1 = output w /\ tx w1 = Some (pending ++ sampleRows i n)%list
      /\ calls w1 = (calls w ++ map execCall (sampleRows i n))%list).
Proof.
  induction n as [|n IH]; intros i w pending st t0 Hfl Htx Hload Hfoo Hids.
  - apply returns_ret. cbn. rewrite !app_nil_r. repeat split; auto.
  - destruct w as [f p t fl o c]. cbn in Hfl, Htx. subst fl t.
    unfold load in Hload; cbn [fs pg] in Hload.
    cbn [insertSampleRows]. apply returns_bind.
    exists (inr tt),
      (mkWorld f p (Some (pending ++ [sampleRow i])%list) [] o
         (c ++ [StmtExec i (snd (sampleRow i))])%list).
    split.
    + unfold sql.Stmt_Exec. run. unfold load; cbn [fs pg driver dataSourceName].
      rewrite Hload, Hfoo, (hasId_fresh _ _ Hids). reflexivity.
    + eapply returns_weaken.
      * apply (IH (i + 1) _ (pending ++ [sampleRow i])%list st t0);
          try reflexivity; try assumption.
        intros r Hin. rewrite app_assoc in Hin.
        apply in_app_or in Hin as [Hin|Hin].
        -- specialize (Hids r Hin). lia.
        -- cbn in Hin. destruct Hin as [<-|[]]. cbn. lia.
      * cbn. intros r w1 (-> & Hf & Hp & Hfl & Ho & Ht & Hc).
        rewrite Ht, Hc, <- !app_assoc. repeat split; auto.
Qed.

Lemma printRows_ok (msg : string) (t : list Row) :
  forall w : World,
    returns (printRows (map inr t) msg) w (fun r w1 =>
      r = None /\ fs w1 = fs w /\ pg w1 = pg w /\ faults w1 = faults w
      /\ tx w1 = tx w /\ output w1 = (output w ++ map rowLine t)%list
      /\ calls w1 = calls w).
Proof.
  induction t as [|[id name] t IH]; intros w.
  - apply returns_ret. rewrite app_nil_r. repeat split; auto.
  - cbn [map printRows]. apply returns_bind. eexists tt, _. split; [reflexivity|].
    eapply returns_weaken; [apply IH|].
    cbn. intros r w1 (-> & Hf & Hp & Hfl & Ht & Ho & Hc).
    rewrite Ho, <- app_assoc. repeat split; auto.
Qed.

Lemma stepped_trans (w w1 w2 : World) (o1 o2 : list Output) (c1 c2 : list Call) :
  stepped w w1 o1 c1 -> stepped w1 w2 o2 c2 -> stepped w w2 (o1 ++ o2) (c1 ++ c2).
Proof.
  intros (_ & _ & Ho1 & Hc1) (Hf & Ht & Ho2 & Hc2). unfold stepped.
  rewrite Ho2, Ho1, Hc2, Hc1, <- !app_assoc. auto.
Qed.

Lemma save_frame (db : DB) (st : Store) (w : World) :
  tx (save db st w) = tx w /\ faults (save db st w) = faults w
  /\ output (save db st w) = output w /\ calls (save db st w) = calls w.
Proof. unfold save. destruct (driver db); cbn; auto. Qed.

Lemma DB_Exec_ok (db : DB) (q : Sql) (w : World) (st st' : Store) :
  faults w = [] -> tx w = None -> load db w = inr st -> execSql q st = inr st' ->
  returns (sql.DB_Exec db q) w (fun r w1 =>
    r = inr tt /\ load db w1 = inr st' /\ stepped w w1 [] [DbExec db q]).
Proof.
  intros Hfl Htx Hload Hq. destruct w as [f p t fl o c]. cbn in Hfl, Htx. subst fl t.
  unfold load in Hload; cbn [fs pg] in Hload.
  eexists _, _. split.
  - unfold sql.DB_Exec. run. unfold load; cbn [fs pg]. rewrite Hload, Hq. reflexivity.
  - split; [reflexivity|]. split; [apply load_save|].
    destruct (save_frame db st'
                (mkWorld f p None [] o (c ++ [DbExec db q])%list)) as (Ht & Hf & Ho & Hc).
    unfold stepped. rewrite Ht, Hf, Ho, Hc. cbn. now rewrite app_nil_r.
Qed.

Lemma selectRows_ok (db : DB) (w : World) (st : Store) (t : list Row)
      (queryMsg scanMsg errMsg : string) :
  faults w = [] -> tx w = None -> load db w = inr st -> foo st = Some t ->
  returns
    (r <- sql.DB_Query db SelectFoo ;;
     match r with
     | inl err => ret (Some (errors.Wrap err queryMsg))
     | inr rows =>
         defer (sql.Rows_Close rows)
           (err <- printRows (scans rows) scanMsg ;;
            match err with
            | Some e => ret (Some e)
            | None =>
                match rowsErr rows with
                | Some e => ret (Some (errors.Wrap e errMsg))
                | None => ret None
                end
            end)
     end) w
    (fun r w1 =>
       r = None /\ load db w1 = inr st
       /\ stepped w w1 (map rowLine t) [DbQuery db SelectFoo; RowsClose]).
Proof.
  intros Hfl Htx Hload Hfoo. destruct w as [f p t0 fl o c]. cbn in Hfl, Htx. subst fl t0.
  unfold load in Hload; cbn [fs pg] in Hload.
  apply returns_bind.
  exists (inr (mkRows (map inr t) None)),
         (mkWorld f p None [] o (c ++ [DbQuery db SelectFoo])%list).
  split.
  - unfold sql.DB_Query. run. unfold load; cbn [fs pg]. rewrite Hload.
    unfold querySql. rewrite Hfoo. unfold openCursor.
    rewrite scanResults_no_fault. reflexivity.
  - apply returns_defer. apply returns_bind. cbn [scans rowsErr].
    eapply returns_weaken; [apply printRows_ok|].
    cbn. intros r [f1 p1 t1 fl1 o1 c1]. cbn. intros (-> & -> & -> & -> & -> & -> & ->).
    apply returns_ret. cbn. unfold stepped, load. cbn. rewrite <- app_assoc.
    repeat split; auto.
Qed.

Lemma selectDataInSampleTable_ok (db : DB) (w : World) (st : Store) (t : list Row) :
  faults w = [] -> tx w = None -> load db w = inr st -> foo st = Some t ->
  returns (selectDataInSampleTable db) w (fun r w1 =>
    r = None /\ load db w1 = inr st
    /\ stepped w w1 (map rowLine t) [DbQuery db SelectFoo; RowsClose]).
Proof. intros. now apply selectRows_ok. Qed.

Lemma insertSampleDataN_ok (n : nat) (db : DB) (w : World) (st : Store) (t0 : list Row) :
  faults w = [] -> tx w = None -> load db w = inr st -> foo st = Some t0 ->
  (forall r, In r t0 -> fst r < 0) ->
  returns (insertSampleDataN n db) w (fun r w1 =>
    r = None
    /\ load db w1 = inr (set_foo (Some (t0 ++ sampleRows 0 n)%list) st)
    /\ stepped w w1 [Stdout "Inserting sample data (10 rows)"]
         ([DbBegin db; TxPrepare InsertIntoFooParams]
            ++ map execCall (sampleRows 0 n) ++ [TxCommit; StmtClose])).
Proof.
  intros Hfl Htx Hload Hfoo Hids. destruct w as [f p t fl o c]. cbn in Hfl, Htx. subst fl t.
  unfold load in Hload; cbn [fs pg] in Hload.
  unfold insertSampleDataN.
  apply returns_bind. eexists tt, _. split; [reflexivity|].
  apply returns_bind. eexists (inr (mkTx db)), _. split.
  { unfold sql.DB_Begin. run. unfold load; cbn [fs pg]. rewrite Hload. reflexivity. }
  apply returns_bind. eexists (inr (mkStmt db InsertIntoFooParams)), _. split.
  { unfold sql.Tx_Prepare. run. unfold load; cbn [fs pg]. rewrite Hload, Hfoo. reflexivity. }
  apply returns_defer. apply returns_bind.
  eapply returns_weaken.
  { apply (insertSampleRows_ok db n 0 _ [] st t0); try reflexivity; try assumption.
    intros r Hin. rewrite app_nil_r in Hin. auto. }
  cbn. intros r [f1 p1 t1 fl1 o1 c1]. cbn. intros (-> & -> & -> & -> & -> & -> & ->).
  apply returns_bind. eexists None, _. split.
  { unfold sql.Tx_Commit. run. unfold load; cbn [fs pg]. rewrite Hload, Hfoo. reflexivity. }
  apply returns_ret. split; [reflexivity|].
  unfold sql.Stmt_Close, called. cbn [snd].
  match goal with
  | |- context [save db ?s ?W] =>
      destruct (save_frame db s W) as (Ht & Hf & Ho & Hc);
      pose proof (load_save db s W) as Hl
  end.
  split.
  - unfold load in *. cbn [fs pg set_calls] in *. exact Hl.
  - unfold stepped. cbn [faults tx output calls set_calls]. rewrite Ht, Hf, Ho, Hc.
    cbn. rewrite <- !app_assoc. cbn. repeat split; auto.
Qed.

Lemma initDb_ok (dbfile : string) (w : World) :
  faults w = [] ->
  returns (initDb dbfile) w (fun r w1 =>
    r = inr (mkDB sqlite3 dbfile)
    /\ fs w1 = removeFile dbfile (fs w) /\ pg w1 = pg w
    /\ load (mkDB sqlite3 dbfile) w1 = inr emptyStore
    /\ faults w1 = [] /\ tx w1 = tx w
    /\ output w1 = (output w ++ match lookupFile dbfile (fs w) with
                                | Some _ => []
                                | None => [removalNote dbfile]
                                end)%list
    /\ calls w1 = (calls w ++ [OsRemove dbfile; SqlOpen "sqlite3" dbfile])%list).
Proof.
  intros Hfl. destruct w as [f p t fl o c]. cbn in Hfl. subst fl.
  unfold initDb, returns. run.
  destruct (lookupFile dbfile f) eqn:E; run;
    eexists _, _; (split; [reflexivity|]); cbn;
    unfold load; cbn; rewrite <- ?app_assoc, ?app_nil_r;
    repeat split; auto.
  - now rewrite lookupFile_removeFile.
  - now rewrite removeFile_absent.
  - now rewrite E.
Qed.

Lemma createSampleTable_ok (db : DB) (w : World) (st : Store) :
  faults w = [] -> tx w = None -> load db w = inr st -> foo st = None ->
  returns (createSampleTable db) w (fun r w1 =>
    r = None /\ load db w1 = inr (set_foo (Some []) st)
    /\ stepped w w1 [] [DbExec db CreateTableFoo]).
Proof.
  intros Hfl Htx Hload Hfoo. unfold createSampleTable. apply returns_bind.
  eapply returns_weaken.
  - apply (DB_Exec_ok db CreateTableFoo w st (set_foo (Some []) st)); auto.
    unfold execSql. now rewrite Hfoo.
  - cbn. intros r w1 (-> & Hl & Hs). apply returns_ret. auto.
Qed.

Lemma deleteSampleTableIfExists_ok (db : DB) (w : World) (st : Store) :
  faults w = [] -> tx w = None -> load db w = inr st ->
  returns (deleteSampleTableIfExists db) w (fun r w1 =>
    r = None /\ load db w1 = inr (set_foo None st)
    /\ stepped w w1 [Stdout "Dropping table foo if it exists..."]
         [DbExec db DropTableIfExistsFoo]).
Proof.
  intros Hfl Htx Hload. unfold deleteSampleTableIfExists.
  apply returns_bind. eexists tt, _. split; [reflexivity|].
  apply returns_bind. eapply returns_weaken.
  - apply (DB_Exec_ok db DropTableIfExistsFoo _ st (set_foo None st)); auto.
  - cbn. intros r w1 (-> & Hl & Hf & Ht & Ho & Hc). apply returns_ret.
    cbn in *. unfold stepped. rewrite Ho, app_nil_r. repeat split; auto.
Qed.

Lemma cleanupSampleTabledb_ok (db : DB) (w : World) (st : Store) (t : list Row) :
  faults w = [] -> tx w = None -> load db w = inr st -> foo st = Some t ->
  returns (cleanupSampleTabledb db) w (fun r w1 =>
    r = None /\ load db w1 = inr (set_foo (Some []) st)
    /\ stepped w w1 [] [DbExec db DeleteFromFoo]).
Proof.
  intros Hfl Htx Hload Hfoo. unfold cleanupSampleTabledb. apply returns_bind.
  eapply returns_weaken.
  - apply (DB_Exec_ok db DeleteFromFoo w st (set_foo (Some []) st)); auto.
    unfold execSql. now rewrite Hfoo.
  - cbn. intros r w1 (-> & Hl & Hs). apply returns_ret. auto.
Qed.

Lemma insertDataAndSelectThem_ok (db : DB) (w : World) (st : Store) :
  faults w = [] -> tx w = None -> load db w = inr st -> foo st = Some [] ->
  returns (insertDataAndSelectThem db) w (fun r w1 =>
    r = None /\ load db w1 = inr (set_foo (Some literalRows) st)
    /\ stepped w w1 (map rowLine literalRows)
         [DbExec db (InsertIntoFooValues literalRows);
          DbQuery db SelectFoo; RowsClose]).
Proof.
  intros Hfl Htx Hload Hfoo. unfold insertDataAndSelectThem. apply returns_bind.
  eapply returns_weaken.
  - apply (DB_Exec_ok db (InsertIntoFooValues literalRows) w st
             (set_foo (Some literalRows) st)); auto.
    unfold execSql. now rewrite Hfoo.
  - cbn beta. intros r w1 (-> & Hl & Hs).
    destruct Hs as (Hf1 & Ht1 & Ho1 & Hc1).
    eapply returns_weaken.
    + apply (selectRows_ok db w1 (set_foo (Some literalRows) st) literalRows); auto.
    + cbn beta. intros r w2 (-> & Hl2 & Hs2).
      split; [reflexivity|]. split; [exact Hl2|].
      exact (stepped_trans _ _ _ _ _ _ _ (conj Hf1 (conj Ht1 (conj Ho1 Hc1))) Hs2).
Qed.

Lemma exits_bind {A B} (m : M A) (k : A -> M B) (w : World) (code : Z)
      (post : World -> Prop) :
  returns m w (fun a w1 => exits (k a) w1 code post) -> exits (bind m k) w code post.
Proof.
  intros (a & w1 & Hm & w2 & Hk & Hpost). exists w2. split; [|exact Hpost].
  unfold bind. now rewrite Hm.
Qed.

Lemma exits_defer {A} (d : M unit) (body : M A) (w : World) (code : Z)
      (post : World -> Prop) :
  exits body w code post -> exits (defer d body) w code post.
Proof.
  intros (w1 & Hm & Hpost). exists w1. split; [|exact Hpost].
  unfold defer. now rewrite Hm.
Qed.

Lemma sampleRows_length (n : nat) : forall i, List.length (sampleRows i n) = n.
Proof. induction n as [|n IH]; intros i; cbn; [reflexivity|now rewrite IH]. Qed.

Lemma showExamplesWithSqlLite_ok (w : World) :
  faults w = [] -> tx w = None ->
  returns showExamplesWithSqlLite w (fun _ w1 =>
    load sqliteDb w1 = inr (mkStore (Some literalRows) None)
    /\ faults w1 = [] /\ tx w1 = None
    /\ calls w1 = (calls w ++ sqliteCalls)%list).
Proof.
  intros Hfl Htx. unfold showExamplesWithSqlLite.
  apply returns_bind. eexists tt, _. split; [reflexivity|].
  apply returns_bind. eexists tt, _. split; [reflexivity|].
  apply returns_bind. eapply returns_weaken; [apply initDb_ok; exact Hfl|].
  cbn beta. intros r w1 (-> & _ & _ & Hl1 & Hf1 & Ht1 & _ & Hc1).
  cbn [fs pg tx faults output calls fmt.Println emit set_output fst snd] in *.
  rewrite Htx in Ht1.
  apply returns_defer.
  unfold orReport. apply returns_bind. eapply returns_weaken.
  { apply (createSampleTable_ok _ w1 emptyStore); auto. }
  cbn beta. intros r w2 (-> & Hl2 & (Hf2 & Ht2 & _ & Hc2)).
  apply returns_bind. eapply returns_weaken.
  { eapply (insertSampleDataN_ok 10 _ w2 _ []); eauto. intros r []. }
  cbn beta. intros r w3 (-> & Hl3 & (Hf3 & Ht3 & _ & Hc3)).
  apply returns_bind. eapply returns_weaken.
  { eapply (selectDataInSampleTable_ok _ w3 _ (sampleRows 0 10)); eauto. }
  cbn beta. intros r w4 (-> & Hl4 & (Hf4 & Ht4 & _ & Hc4)).
  apply returns_bind. eapply returns_weaken.
  { eapply (cleanupSampleTabledb_ok _ w4 _ (sampleRows 0 10)); eauto. }
  cbn beta. intros r w5 (-> & Hl5 & (Hf5 & Ht5 & _ & Hc5)).
  apply returns_bind. eapply returns_weaken.
  { eapply (insertDataAndSelectThem_ok _ w5 _); eauto. }
  cbn beta. intros r w6 (-> & Hl6 & (Hf6 & Ht6 & _ & Hc6)).
  apply returns_ret. unfold sql.DB_Close, called. cbn [snd].
  unfold load in *. cbn [fs pg tx faults calls set_calls] in *.
  repeat split; auto.
  rewrite Hc6, Hc5, Hc4, Hc3, Hc2, Hc1, <- !app_assoc. reflexivity.
Qed.

Lemma printSpatialRefs_ok (t : list Row) :
  forall w : World,
    returns (printSpatialRefs (map inr t)) w (fun _ w1 =>
      faults w1 = faults w /\ tx w1 = tx w /\ calls w1 = calls w
      /\ output w1 = (output w ++ map testLine t)%list).
Proof.
  induction t as [|[srid text] t IH]; intros w.
  - apply returns_ret. rewrite app_nil_r. auto.
  - cbn [map printSpatialRefs]. apply returns_bind. eexists tt, _. split; [reflexivity|].
    eapply returns_weaken; [apply IH|].
    cbn. intros _ w1 (Hfl & Ht & Hc & Ho). rewrite Ho, <- app_assoc. auto.
Qed.

Lemma showExamplesWithPostgres_ok (dbParams : PostgresDb) (w : World)
      (st : Store) (srs : list Row) :
  faults w = [] -> tx w = None -> pg w = Some st -> spatial_ref_sys st = Some srs ->
  returns (showExamplesWithPostgres dbParams) w (fun _ w1 =>
    faults w1 = [] /\ tx w1 = None
    /\ calls w1 = (calls w ++ postgresCalls dbParams)%list).
Proof.
  intros Hfl Htx Hpg Hsrs.
  set (db := mkDB postgres (buildConnectionString dbParams)).
  assert (Hload : forall w', pg w' = Some st -> load db w' = inr st).
  { intros w' H. unfold load. cbn. now rewrite H. }
  unfold showExamplesWithPostgres, connectToPostgres.
  apply returns_bind. eexists tt, _. split; [reflexivity|].
  apply returns_bind. eexists tt, _. split; [reflexivity|].
  apply returns_bind.
  exists (inr db), (mkWorld (fs w) (pg w) None [] 
     ((output w ++ [Stdout "Showing output from statements ran against PostgreSQL."])
        ++ [Stdout "======================================================"])%list
     (calls w ++ [SqlOpen "postgres" (buildConnectionString dbParams)])%list).
  split.
  { destruct w as [f p t fl o c]. cbn in Hfl, Htx. subst. reflexivity. }
  apply returns_bind. eexists tt, _. split; [reflexivity|].
  apply returns_defer.
  unfold orReport. apply returns_bind. eapply returns_weaken.
  { eapply (deleteSampleTableIfExists_ok db _ st); eauto. }
  cbn beta. intros r w2 (-> & Hl2 & (Hf2 & Ht2 & _ & Hc2)).
  apply returns_bind. eapply returns_weaken.
  { eapply (createSampleTable_ok db w2); eauto. }
  cbn beta. intros r w3 (-> & Hl3 & (Hf3 & Ht3 & _ & Hc3)).
  apply returns_bind. eapply returns_weaken.
  { eapply (insertSampleDataN_ok 10 db w3 _ []); eauto. intros r []. }
  cbn beta. intros r w4 (-> & Hl4 & (Hf4 & Ht4 & _ & Hc4)).
  apply returns_bind. eapply returns_weaken.
  { eapply (selectDataInSampleTable_ok db w4 _ (sampleRows 0 10)); eauto. }
  cbn beta. intros r w5 (-> & Hl5 & (Hf5 & Ht5 & _ & Hc5)).
  apply returns_bind.
  exists (inr (mkRows (map inr srs) None)),
         (set_calls (calls w5 ++ [DbQuery db SelectSpatialRefSys])%list w5).
  split.
  { destruct w5 as [f p t fl o c]. cbn in Hf5, Ht5. subst.
    unfold sql.DB_Query. run. unfold load in *. cbn [fs pg] in *.
    rewrite Hl5. cbn. rewrite Hsrs.
    unfold openCursor. rewrite scanResults_no_fault. reflexivity. }
  apply returns_defer. eapply returns_weaken; [apply printSpatialRefs_ok|].
  cbn. intros _ w6 (Hf6 & Ht6 & Hc6 & _).
  repeat split; try congruence.
  rewrite Hc6, Hc5, Hc4, Hc3, Hc2. cbn. rewrite <- !app_assoc. reflexivity.
Qed.

Lemma showExamplesWithPostgres_exits (dbParams : PostgresDb) (w : World) (st : Store) :
  faults w = [] -> tx w = None -> pg w = Some st -> spatial_ref_sys st = None ->
  exits (showExamplesWithPostgres dbParams) w 1 (fun w1 =>
    output w1 = (output w ++ postgresOutputBefore
                   ++ [Stderr "no such table: spatial_ref_sys"])%list
    /\ calls w1 = (calls w ++ postgresCallsBefore dbParams)%list).
Proof.
  intros Hfl Htx Hpg Hsrs.
  set (db := mkDB postgres (buildConnectionString dbParams)).
  assert (Hload : forall w', pg w' = Some st -> load db w' = inr st).
  { intros w' H. unfold load. cbn. now rewrite H. }
  unfold showExamplesWithPostgres, connectToPostgres.
  apply exits_bind. eexists tt, _. split; [reflexivity|].
  apply exits_bind. eexists tt, _. split; [reflexivity|].
  apply exits_bind.
  exists (inr db), (mkWorld (fs w) (pg w) None [] 
     ((output w ++ [Stdout "Showing output from statements ran against PostgreSQL."])
        ++ [Stdout "======================================================"])%list
     (calls w ++ [SqlOpen "postgres" (buildConnectionString dbParams)])%list).
  split.
  { destruct w as [f p t fl o c]. cbn in Hfl, Htx. subst. reflexivity. }
  apply exits_bind. eexists tt, _. split; [reflexivity|].
  apply exits_defer.
  unfold orReport. apply exits_bind. eapply returns_weaken.
  { eapply (deleteSampleTableIfExists_ok db _ st); eauto. }
  cbn beta. intros r w2 (-> & Hl2 & (Hf2 & Ht2 & Ho2 & Hc2)).
  apply exits_bind. eapply returns_weaken.
  { eapply (createSampleTable_ok db w2); eauto. }
  cbn beta. intros r w3 (-> & Hl3 & (Hf3 & Ht3 & Ho3 & Hc3)).
  apply exits_bind. eapply returns_weaken.
  { eapply (insertSampleDataN_ok 10 db w3 _ []); eauto. intros r []. }
  cbn beta. intros r w4 (-> & Hl4 & (Hf4 & Ht4 & Ho4 & Hc4)).
  apply exits_bind. eapply returns_weaken.
  { eapply (selectDataInSampleTable_ok db w4 _ (sampleRows 0 10)); eauto. }
  cbn beta. intros r w5 (-> & Hl5 & (Hf5 & Ht5 & Ho5 & Hc5)).
  apply exits_bind.
  exists (inl (noSuchTable "spatial_ref_sys")),
         (set_calls (calls w5 ++ [DbQuery db SelectSpatialRefSys])%list w5).
  split.
  { destruct w5 as [f p t fl o c]. cbn in Hf5, Ht5. subst.
    unfold sql.DB_Query. run. unfold load in *. cbn [fs pg] in *.
    rewrite Hl5. cbn. rewrite Hsrs. reflexivity. }
  eexists. split; [reflexivity|].
  cbn [output calls set_calls set_output emit bind fst snd] in *.
  rewrite Ho5, Ho4, Ho3, Ho2, Hc5, Hc4, Hc3, Hc2.
  unfold postgresOutputBefore, postgresCallsBefore, insertCalls.
  rewrite <- !app_assoc. split; reflexivity.
Qed.

Lemma filter_none (n : Z) (t : list Row) :
  (forall r, In r t -> fst r <> n) -> filter (fun r => Z.eqb (fst r) n) t = [].
Proof.
  induction t as [|r t IH]; intros H; cbn; [reflexivity|].
  destruct (Z.eqb_spec (fst r) n) as [E|_].
  - exfalso. apply (H r); [now left|exact E].
  - apply IH. intros r' Hin. apply H. now right.
Qed.

(* ================================================================== *)
(** ** Runs that always return *)

Lemma total_ret {A} (a : A) : total (ret a).
Proof. intros w. now apply returns_ret. Qed.

Lemma total_bind {A B} (m : M A) (k : A -> M B) :
  total m -> (forall a, total (k a)) -> total (bind m k).
Proof.
  intros Hm Hk w. apply returns_bind.
  eapply returns_weaken; [apply Hm|]. cbn beta. intros a w1 _. apply Hk.
Qed.

Lemma total_defer {A} (d : M unit) (body : M A) : total body -> total (defer d body).
Proof.
  intros Hb w. apply returns_defer.
  eapply returns_weaken; [apply Hb|]. auto.
Qed.

Lemma total_emit (o : Output) : total (emit o).
Proof. intros w. eexists _, _. split; [reflexivity|exact I]. Qed.

Lemma total_Println (line : string) : total (fmt.Println line).
Proof. apply total_emit. Qed.

Lemma total_attempt {A} (c : Call) (body : M (error + A)) :
  total body -> total (sql.attempt c body).
Proof.
  intros Hb. unfold sql.attempt.
  apply total_bind; [intros w; eexists _, _; split; [reflexivity|exact I]|].
  intros _. apply total_bind.
  - intros w. unfold returns, nextFault.
    destruct (faults w); eexists _, _; (split; [reflexivity|exact I]).
  - intros [e|]; [apply total_ret|exact Hb].
Qed.

Lemma total_DB_Exec (db : DB) (q : Sql) : total (sql.DB_Exec db q).
Proof.
  apply total_attempt. intros w. unfold returns.
  destruct (load db w) as [e|st]; [|destruct (execSql q st)];
    eexists _, _; (split; [reflexivity|exact I]).
Qed.

Lemma total_DB_Query (db : DB) (q : Sql) : total (sql.DB_Query db q).
Proof.
  apply total_attempt. intros w. unfold returns.
  destruct (load db w) as [e|st]; [|destruct (querySql q st) as [e|rows]];
    try destruct (openCursor rows (faults w)) as [cursor fl];
    eexists _, _; (split; [reflexivity|exact I]).
Qed.

Lemma total_printStackTrace (err : error) : total (printStackTrace err).
Proof.
  unfold printStackTrace. apply total_bind; [|intros; apply total_Println].
  destruct (errors.hasStackTrace err); [apply total_emit|apply total_ret].
Qed.

Lemma total_printRows (msg : string) (sc : list (error + Row)) : total (printRows sc msg).
Proof.
  induction sc as [|[e|[id name]] sc IH]; cbn [printRows]; try apply total_ret.
  apply total_bind; [apply total_Println|intros; exact IH].
Qed.

Lemma total_initDb (dbfile : string) : total (initDb dbfile).
Proof.
  unfold initDb. apply total_bind.
  - intros w. unfold returns, os.Remove, bind, called. cbn.
    destruct (lookupFile dbfile (fs w)); eexists _, _; (split; [reflexivity|exact I]).
  - intros err. apply total_bind.
    + destruct err; [apply total_emit|apply total_ret].
    + intros _. apply total_bind.
      * apply total_attempt. cbn.
        intros w. eexists _, _. split; [reflexivity|exact I].
      * intros [e|db]; apply total_ret.
Qed.

Lemma total_createSampleTable (db : DB) : total (createSampleTable db).
Proof.
  unfold createSampleTable. apply total_bind; [apply total_DB_Exec|].
  intros [e|u]; apply total_ret.
Qed.

Lemma total_insertSampleData (db : DB) : total (insertSampleData db).
Proof.
  intros w. eapply returns_weaken; [apply insertSampleDataN_any|auto].
Qed.

Lemma total_selectDataInSampleTable (db : DB) : total (selectDataInSampleTable db).
Proof.
  unfold selectDataInSampleTable. apply total_bind; [apply total_DB_Query|].
  intros [e|rows]; [apply total_ret|]. apply total_defer.
  apply total_bind; [apply total_printRows|].
  intros [e|]; [apply total_ret|]. destruct (rowsErr rows); apply total_ret.
Qed.

Lemma total_cleanupSampleTabledb (db : DB) : total (cleanupSampleTabledb db).
Proof.
  unfold cleanupSampleTabledb. apply total_bind; [apply total_DB_Exec|].
  intros [e|u]; apply total_ret.
Qed.

Lemma total_insertDataAndSelectThem (db : DB) : total (insertDataAndSelectThem db).
Proof.
  unfold insertDataAndSelectThem. apply total_bind; [apply total_DB_Exec|].
  intros [e|u]; [apply total_ret|].
  apply total_bind; [apply total_DB_Query|].
  intros [e|rows]; [apply total_ret|]. apply total_defer.
  apply total_bind; [apply total_printRows|].
  intros [e|]; [apply total_ret|]. destruct (rowsErr rows); apply total_ret.
Qed.

Lemma total_orReport (stage : M (option error)) (next : M unit) :
  total stage -> total next -> total (orReport stage next).
Proof.
  intros Hs Hn. unfold orReport. apply total_bind; [exact Hs|].
  intros [e|]; [apply total_printStackTrace|exact Hn].
Qed.

(** Whatever fails, [showExamplesWithSqlLite] returns to its caller: none of
    its stages ends the process or panics. *)
Lemma showExamplesWithSqlLite_always_returns : total showExamplesWithSqlLite.
Proof.
  unfold showExamplesWithSqlLite.
  apply total_bind; [apply total_Println|intros _].
  apply total_bind; [apply total_Println|intros _].
  apply total_bind; [apply total_initDb|].
  intros [e|db]; [apply total_printStackTrace|]. apply total_defer.
  apply total_orReport; [apply total_createSampleTable|].
  apply total_orReport; [apply total_insertSampleData|].
  apply total_orReport; [apply total_selectDataInSampleTable|].
  apply total_orReport; [apply total_cleanupSampleTabledb|].
  apply total_orReport; [apply total_insertDataAndSelectThem|].
  apply total_ret.
Qed.

(* ================================================================== *)
(** ** Transactions: insertSampleData and selectDataInSampleTable *)




(** C2.  On an empty table, with no failure of the database layer and no
    transaction in progress, the insert loop run for [n] rows commits exactly
    the [n] rows it sent, and [selectDataInSampleTable] then prints [n] rows,
    the same (id, name) pairs up to their order.  [insertSampleData] is the
    case [n = 10]. *)
Theorem C2_insert_then_select_all :
  forall (n : nat) (db : DB) (w : World) (st : Store),
    faults w = [] -> tx w = None -> load db w = inr st -> foo st = Some [] ->
    returns (insertSampleDataN n db) w (fun r1 w1 =>
      r1 = None
      /\ calls w1 = (calls w ++ [DbBegin db; TxPrepare InsertIntoFooParams]
                              ++ map execCall (sampleRows 0 n)
                              ++ [TxCommit; StmtClose])%list
      /\ load db w1 = inr (set_foo (Some (sampleRows 0 n)) st)
      /\ returns (selectDataInSampleTable db) w1 (fun r2 w2 =>
           r2 = None
           /\ exists printed : list Row,
                output w2 = (output w1 ++ map rowLine printed)%list
                /\ Permutation printed (sampleRows 0 n)
                /\ List.length printed = n)).
Proof.
  intros n db w st Hfl Htx Hload Hfoo.
  eapply returns_weaken.
  { apply (insertSampleDataN_ok n db w st []); auto. intros r []. }
  cbn beta. intros r w1 (-> & Hl1 & (Hf1 & Ht1 & _ & Hc1)). cbn [app] in Hl1.
  split; [reflexivity|]. split; [exact Hc1|]. split; [exact Hl1|].
  eapply returns_weaken.
  { eapply (selectDataInSampleTable_ok db w1 _ (sampleRows 0 n)); eauto. }
  cbn beta. intros r w2 (-> & _ & (_ & _ & Ho2 & _)).
  split; [reflexivity|]. exists (sampleRows 0 n).
  repeat split; auto using sampleRows_length.
Qed.

(** The ten rows of [insertSampleData] on a new table in the file. *)
Lemma C2_witness :
  returns (insertSampleData sqliteDb)
    (freshWorld [("./foo.db", DbFile (mkStore (Some []) None))] None)
    (fun r1 w1 =>
       r1 = None
       /\ calls w1 = insertCalls sqliteDb
       /\ load sqliteDb w1 = inr (mkStore (Some (sampleRows 0 10)) None)
       /\ returns (selectDataInSampleTable sqliteDb) w1 (fun r2 w2 =>
            r2 = None
            /\ exists printed : list Row,
                 output w2 = (output w1 ++ map rowLine printed)%list
                 /\ Permutation printed (sampleRows 0 10)
                 /\ List.length printed = 10%nat)).
Proof.
  exact (C2_insert_then_select_all 10 sqliteDb
           (freshWorld [("./foo.db", DbFile (mkStore (Some []) None))] None)
           (mkStore (Some []) None) eq_refl eq_refl eq_refl eq_refl).
Defined.

(* ================================================================== *)
(** ** Opening the SQLite database *)

(** C7.  With no failure of the database layer, [initDb] on any path and any
    file system removes the file at the path and then opens the database: it
    returns the handle, no file is left at the path, and the database behind
    the handle is the empty one.  When there was no file, the removal fails,
    which is only logged: the files stay as they were and the database is
    opened all the same.  So on a path used before (and closed, no
    transaction being in progress), creating the table succeeds again and
    the table is empty. *)
Theorem C7_open_starts_from_an_empty_store :
  forall (dbfile : string) (w : World),
    faults w = [] -> tx w = None ->
    let db := mkDB sqlite3 dbfile in
    returns (initDb dbfile) w (fun r w1 =>
      r = inr db
      /\ calls w1 = (calls w ++ [OsRemove dbfile; SqlOpen "sqlite3" dbfile])%list
      /\ lookupFile dbfile (fs w1) = None
      /\ load db w1 = inr emptyStore
      /\ (lookupFile dbfile (fs w) = None ->
          fs w1 = fs w /\ output w1 = (output w ++ [removalNote dbfile])%list)
      /\ returns (createSampleTable db) w1 (fun r2 w2 =>
           r2 = None
           /\ load db w2 = inr (mkStore (Some []) None)
           /\ returns (selectDataInSampleTable db) w2 (fun r3 w3 =>
                r3 = None /\ output w3 = output w2))).
Proof.
  intros dbfile w Hfl Htx db.
  eapply returns_weaken; [apply initDb_ok; exact Hfl|].
  cbn beta. intros r w1 (-> & Hfs & _ & Hl1 & Hf1 & Ht1 & Ho1 & Hc1).
  rewrite Htx in Ht1.
  split; [reflexivity|]. split; [exact Hc1|].
  split; [rewrite Hfs; apply lookupFile_removeFile|].
  split; [exact Hl1|]. split.
  - intros Hnone. rewrite Hnone in Ho1. split; [|exact Ho1].
    rewrite Hfs. now apply removeFile_absent.
  - eapply returns_weaken.
    { eapply (createSampleTable_ok db w1 emptyStore); eauto. }
    cbn beta. intros r w2 (-> & Hl2 & (Hf2 & Ht2 & _ & _)).
    split; [reflexivity|]. split; [exact Hl2|].
    eapply returns_weaken.
    { eapply (selectDataInSampleTable_ok db w2 _ []); eauto. }
    cbn beta. intros r w3 (-> & _ & (_ & _ & Ho3 & _)).
    split; [reflexivity|]. cbn in Ho3. now rewrite app_nil_r in Ho3.
Qed.

(** Opening again after a full run of [showExamplesWithSqlLite], which has
    left three rows in the file and closed the handle. *)
Lemma C7_witness :
  let w := snd (showExamplesWithSqlLite (freshWorld [] None)) in
  load sqliteDb w = inr (mkStore (Some literalRows) None)
  /\ returns (initDb "./foo.db") w (fun r w1 =>
       r = inr sqliteDb /\ load sqliteDb w1 = inr emptyStore).
Proof.
  intros w. split; [reflexivity|].
  eapply returns_weaken.
  - exact (C7_open_starts_from_an_empty_store "./foo.db" w eq_refl eq_refl).
  - cbn beta. intros r w1 (Hr & _ & _ & Hl & _). split; assumption.
Defined.

(* ================================================================== *)
(** ** The point lookup *)

Lemma pointLookup_absent (db : DB) (w : World) (st : Store) (t : list Row) :
  faults w = [] -> load db w = inr st -> foo st = Some t ->
  (forall r, In r t -> fst r <> 3) ->
  sql.Stmt_QueryRow_Scan (mkStmt db SelectNameWhereId) "3" w
  = (Val (inl ErrNoRows), set_calls (calls w ++ [StmtQueryRow "3"])%list w)
  /\ pointLookup db w
     = (Exit 1,
        set_output (output w ++ [Stderr "sql: no rows in result set"])%list
          (set_calls (calls w ++ [DbPrepare db SelectNameWhereId; StmtQueryRow "3"])%list
             w)).
Proof.
  intros Hfl Hload Hfoo Hids. destruct w as [f p t0 fl o c]. cbn in Hfl. subst fl.
  unfold load in Hload; cbn [fs pg] in Hload.
  unfold pointLookup, sql.Stmt_QueryRow_Scan, sql.DB_Prepare. run.
  unfold load; cbn [fs pg]. rewrite Hload, Hfoo. run.
  unfold load; cbn [fs pg]. rewrite Hload, Hfoo.
  change (strconv.Atoi "3") with (3, @None NumErr). cbv iota beta.
  rewrite (filter_none _ _ Hids). run. cbn [errors.Error].
  rewrite <- app_assoc. split; reflexivity.
Qed.

(** C9.  When no row of the table has the key, and the database layer does
    not fail, the lookup [stmt.QueryRow("3").Scan(&name)] returns the error
    [sql.ErrNoRows], which is neither a scan (decode) error nor a driver
    (connection) error; the program prints no name: it logs the error and
    leaves through [log.Fatal]. *)
Theorem C9_lookup_of_absent_key :
  forall (db : DB) (w : World) (st : Store) (t : list Row),
    faults w = [] -> load db w = inr st -> foo st = Some t ->
    (forall r, In r t -> fst r <> 3) ->
    fst (sql.Stmt_QueryRow_Scan (mkStmt db SelectNameWhereId) "3" w)
    = Val (inl ErrNoRows)
    /\ (forall m, ErrNoRows <> ErrScan m /\ ErrNoRows <> ErrDriver m)
    /\ exits (pointLookup db) w 1 (fun w1 =>
         output w1 = (output w ++ [Stderr "sql: no rows in result set"])%list).
Proof.
  intros db w st t Hfl Hload Hfoo Hids.
  destruct (pointLookup_absent db w st t Hfl Hload Hfoo Hids) as [Hscan Hrun].
  split; [now rewrite Hscan|]. split; [split; discriminate|].
  eexists. split; [exact Hrun|]. reflexivity.
Qed.

(** A table with the keys 1 and 2 only. *)
Lemma C9_witness :
  let w := freshWorld [("./foo.db", DbFile (mkStore (Some [(1, "foo"); (2, "bar")]) None))]
                      None in
  fst (sql.Stmt_QueryRow_Scan (mkStmt sqliteDb SelectNameWhereId) "3" w)
  = Val (inl ErrNoRows)
  /\ exits (pointLookup sqliteDb) w 1 (fun w1 =>
       output w1 = [Stderr "sql: no rows in result set"]).
Proof.
  intros w.
  assert (Hids : forall r : Row, In r [(1, "foo"); (2, "bar")] -> fst r <> 3).
  { intros r [<-|[<-|[]]]; discriminate. }
  destruct (C9_lookup_of_absent_key sqliteDb w
              (mkStore (Some [(1, "foo"); (2, "bar")]) None)
              [(1, "foo"); (2, "bar")] eq_refl eq_refl eq_refl Hids)
    as (Hscan & _ & Hexit).
  split; [exact Hscan|exact Hexit].
Defined.

(* ================================================================== *)
(** ** The two runs *)

(** C5, as the code has it.  When nothing fails, each run makes a fixed
    sequence of calls, and the two sequences differ.  On SQLite: remove the
    file and open, create the table, insert ten generated rows in a
    transaction, select all, delete all, insert three literal rows, select
    all, close.  On PostgreSQL (with the table of spatial reference systems
    present): open, drop the table if it exists, create it, insert ten
    generated rows in a transaction, select all, select the spatial
    reference systems, close.  Neither has a point lookup. *)
Theorem C5_stage_sequences :
  (forall w : World,
      faults w = [] -> tx w = None ->
      returns showExamplesWithSqlLite w (fun _ w1 =>
        calls w1 = (calls w ++ sqliteCalls)%list))
  /\ stages sqliteCalls
     = [StOpen; StCreateSchema; StTxInsert; StSelectAll; StDeleteAll;
        StLiteralInsert; StSelectAll; StClose]
  /\ (forall (p : PostgresDb) (w : World) (st : Store) (srs : list Row),
        faults w = [] -> tx w = None ->
        pg w = Some st -> spatial_ref_sys st = Some srs ->
        returns (showExamplesWithPostgres p) w (fun _ w1 =>
          calls w1 = (calls w ++ postgresCalls p)%list))
  /\ (forall p : PostgresDb,
        stages (postgresCalls p)
        = [StOpen; StDropIfExists; StCreateSchema; StTxInsert; StSelectAll;
           StSpatialRefQuery; StClose]).
Proof.
  split; [|split; [reflexivity|split; [|reflexivity]]].
  - intros w Hfl Htx. eapply returns_weaken.
    + now apply showExamplesWithSqlLite_ok.
    + cbn beta. intros _ w1 (_ & _ & _ & Hc). exact Hc.
  - intros p w st srs Hfl Htx Hpg Hsrs. eapply returns_weaken.
    + now apply (showExamplesWithPostgres_ok p w st srs).
    + cbn beta. intros _ w1 (_ & _ & Hc). exact Hc.
Qed.

(** Both runs from a world where nothing has happened, the server having
    one spatial reference system. *)
Lemma C5_witness :
  returns showExamplesWithSqlLite (freshWorld [] None) (fun _ w1 =>
    calls w1 = sqliteCalls)
  /\ returns (showExamplesWithPostgres defaultParams)
       (freshWorld [] (Some (mkStore None (Some [(4326, "+proj=longlat")]))))
       (fun _ w1 => calls w1 = postgresCalls defaultParams).
Proof.
  split.
  - exact (proj1 C5_stage_sequences (freshWorld [] None) eq_refl eq_refl).
  - exact (proj1 (proj2 (proj2 C5_stage_sequences)) defaultParams
             (freshWorld [] (Some (mkStore None (Some [(4326, "+proj=longlat")]))))
             (mkStore None (Some [(4326, "+proj=longlat")]))
             [(4326, "+proj=longlat")] eq_refl eq_refl eq_refl eq_refl).
Defined.

(** C5 as stated fails: neither run goes through the stages the pipeline
    lists, and the two runs do not go through the same stages. *)
Lemma C5_counterexample :
  let lite := stages (calls (snd (showExamplesWithSqlLite (freshWorld [] None)))) in
  let server := Some (mkStore None (Some [(4326, "+proj=longlat")])) in
  let pgsql :=
    stages (calls (snd (showExamplesWithPostgres defaultParams
                          (freshWorld [] server)))) in
  lite <> specPipeline /\ pgsql <> specPipeline /\ lite <> pgsql
  /\ ~ In StPointLookup lite /\ ~ In StPointLookup pgsql
  /\ ~ In StDropIfExists lite /\ ~ In StDeleteAll pgsql.
Proof.
  vm_compute. repeat split; intros H;
    try discriminate H;
    repeat (destruct H as [H|H]; [discriminate H|]); exact H.
Qed.

(** C4 at the input where it fails.  On a server that has no table
    [spatial_ref_sys], every stage up to the select succeeds; the query on
    the missing table then fails, and the run goes to [log.Fatal]: the error
    is logged and the process exits with status 1 in the middle of
    [showExamplesWithPostgres], the deferred close of the handle being
    skipped. *)
Theorem C4_failed_query_exits_the_process :
  forall (dbParams : PostgresDb) (w : World) (st : Store),
    faults w = [] -> tx w = None ->
    pg w = Some st -> spatial_ref_sys st = None ->
    exits (showExamplesWithPostgres dbParams) w 1 (fun w1 =>
      output w1 = (output w ++ postgresOutputBefore
                     ++ [Stderr "no such table: spatial_ref_sys"])%list
      /\ calls w1 = (calls w ++ postgresCallsBefore dbParams)%list
      /\ ~ In (DbClose (mkDB postgres (buildConnectionString dbParams)))
              (postgresCallsBefore dbParams)).
Proof.
  intros dbParams w st Hfl Htx Hpg Hsrs.
  destruct (showExamplesWithPostgres_exits dbParams w st Hfl Htx Hpg Hsrs)
    as (w1 & E & Ho & Hc).
  exists w1. split; [exact E|]. split; [exact Ho|]. split; [exact Hc|].
  cbn. intros H. repeat (destruct H as [H|H]; [discriminate H|]). exact H.
Qed.

(** [main] without arguments, the server having no PostGIS tables: the
    SQLite run completes, the PostgreSQL run ends the process. *)
Lemma C4_witness :
  exits (showExamplesWithPostgres defaultParams)
    (freshWorld [] (Some emptyStore)) 1
    (fun w1 => calls w1 = postgresCallsBefore defaultParams)
  /\ fst (main ["databaseAccess"] (freshWorld [] (Some emptyStore))) = Exit 1.
Proof.
  split; [|reflexivity].
  destruct (C4_failed_query_exits_the_process defaultParams
              (freshWorld [] (Some emptyStore)) emptyStore
              eq_refl eq_refl eq_refl eq_refl) as (w1 & E & _ & Hc & _).
  exists w1. split; [exact E|exact Hc].
Defined.
